(** * BinanceTradingBOT: argument validation and order construction

    A shallow embedding of [src/main.py]: the command-line validation
    ([validate_args]), the construction of the outgoing order parameters
    ([place_order]), the LOT_SIZE rounding helper ([_validate_quantity])
    and the single-shot pipeline of [main].

    Modelling conventions.
    - A Python [str] is a [string]; the case predicates of [str] are
      modelled on the ASCII repertoire (code points below 128), where
      the only cased characters are the letters a-z and A-Z.
    - A Python [float] that the program only tests and hands on (the
      quantity and the prices of an order, a balance) is an exact
      rational of [Q]; NaN and the infinities are outside that model.
      The LOT_SIZE helper computes with floats: it is embedded on
      exact rationals, an idealisation, and again on binary64 in the
      module [F64], with the primitive floats of the machine.
    - A Python [int] is a [Z]; [None] is the [None] of [option].
    - A [dict] with string keys is a [gmap string _].
    - Exceptions are the [Raise] results of an error monad; the effects
      of [main] (network calls, log records, lines on standard output)
      are collected in a trace. *)

From Stdlib Require Import ZArith QArith Qround Qabs Lqa String Ascii List Lia.
From Stdlib Require Import Floats.
From stdpp Require Import gmap strings.

Local Open Scope string_scope.

(* Decimal literals such as 0.1 stand for the nearest binary64 number. *)
#[local] Set Warnings "-inexact-float".

(** ** Python strings on ASCII *)

Module PyStr.

Definition code (ch : ascii) : N := N_of_ascii ch.

(** [ch.islower()] / [ch.isupper()] for a single ASCII character. *)
Definition char_islower (ch : ascii) : bool :=
  ((97 <=? code ch) && (code ch <=? 122))%N.

Definition char_isupper (ch : ascii) : bool :=
  ((65 <=? code ch) && (code ch <=? 90))%N.

Definition char_isascii (ch : ascii) : bool := (code ch <? 128)%N.

(** [ch.upper()] for a single ASCII character. *)
Definition char_upper (ch : ascii) : ascii :=
  if char_islower ch then ascii_of_N (code ch - 32) else ch.

(** [s.upper()] *)
Fixpoint upper (s : string) : string :=
  match s with
  | EmptyString => EmptyString
  | String ch rest => String (char_upper ch) (upper rest)
  end.

(** [s.isascii()] *)
Fixpoint isascii (s : string) : bool :=
  match s with
  | EmptyString => true
  | String ch rest => char_isascii ch && isascii rest
  end.

(** The scan of [s.isupper()]: a lowercase character ends it with
    [False]; an uppercase one sets the flag [cased]; the flag is the
    answer at the end of the string. *)
Fixpoint isupper_scan (cased : bool) (s : string) : bool :=
  match s with
  | EmptyString => cased
  | String ch rest =>
      if char_islower ch then false
      else isupper_scan (cased || char_isupper ch) rest
  end.

(** [s.isupper()] *)
Definition isupper (s : string) : bool := isupper_scan false s.

(** Some character of [s] is cased (a letter). *)
Fixpoint has_cased (s : string) : bool :=
  match s with
  | EmptyString => false
  | String ch rest => char_islower ch || char_isupper ch || has_cased rest
  end.

End PyStr.

(** ** Python values, exceptions and the error monad *)

(** Truthiness of an optional float, as in [if price:] and
    [not args.price]: [None] and [0.0] are false. *)
Definition truthy_float (x : option Q) : bool :=
  match x with
  | None => false
  | Some v => negb (Qeq_bool v 0)
  end.

(** Truthiness of an optional int: [None] and [0] are false. *)
Definition truthy_int (x : option Z) : bool :=
  match x with
  | None => false
  | Some v => negb (v =? 0)%Z
  end.

(** Truthiness of an optional string: [None] and [''] are false. *)
Definition truthy_str (x : option string) : bool :=
  match x with
  | None => false
  | Some v => negb (String.eqb v "")
  end.

Inductive exn : Type :=
| ValueError (msg : string)
| QuantityRangeError (min_qty max_qty : Q)
    (* ValueError(f"Quantity must be between {min_qty} and {max_qty}") *)
| ZeroDivisionError
| KeyError (key : string)
| BinanceAPIException (status_code : Z) (message : string)
| OtherException (text : string).

Inductive result (A : Type) : Type :=
| Return (a : A)
| Raise (e : exn).

Arguments Return {A} a.
Arguments Raise {A} e.

(** ** [validate_args] *)

(** The [argparse.Namespace] produced by the parser of [main].  The
    parser admits BUY and SELL for [side], and MARKET, LIMIT, STOP and
    TRAILING_STOP for [type]; [quantity] is required, the three values
    after it are optional. *)
Record Namespace : Type := mkNamespace {
  symbol : string;
  side : string;
  type : string;
  quantity : Q;
  price : option Q;
  stop_price : option Q;
  trailing_delta : option Z;
  api_key : option string;
  api_secret : option string;
  testnet : bool
}.

Definition InvalidSymbol : exn :=
  ValueError "Symbol must be uppercase (e.g., BTCUSDT)".
Definition MissingPrice : exn :=
  ValueError "Limit orders require --price".
Definition MissingStopPrice : exn :=
  ValueError "Stop orders require --stop_price".
Definition MissingTrailingDelta : exn :=
  ValueError "Trailing stop orders require --trailing_delta".
Definition InvalidQuantity : exn :=
  ValueError "Quantity must be positive".

Definition validate_args (args : Namespace) : result unit :=
  if negb (PyStr.isupper (symbol args)) then
    Raise InvalidSymbol
  else if String.eqb (type args) "LIMIT" && negb (truthy_float (price args)) then
    Raise MissingPrice
  else if String.eqb (type args) "STOP" && negb (truthy_float (stop_price args)) then
    Raise MissingStopPrice
  else if String.eqb (type args) "TRAILING_STOP"
          && negb (truthy_int (trailing_delta args)) then
    Raise MissingTrailingDelta
  else if Qle_bool (quantity args) 0 then
    Raise InvalidQuantity
  else
    Return tt.

(** The five checks of [validate_args] in the order of the source, each
    with the error it raises.  A check is [true] on the arguments that
    violate the rule. *)
Definition rule_checks : list ((Namespace -> bool) * exn) :=
  [ (fun args => negb (PyStr.isupper (symbol args)), InvalidSymbol);
    (fun args => String.eqb (type args) "LIMIT" && negb (truthy_float (price args)),
     MissingPrice);
    (fun args => String.eqb (type args) "STOP" && negb (truthy_float (stop_price args)),
     MissingStopPrice);
    (fun args => String.eqb (type args) "TRAILING_STOP"
                 && negb (truthy_int (trailing_delta args)),
     MissingTrailingDelta);
    (fun args => Qle_bool (quantity args) 0, InvalidQuantity) ].

(** Validation lets the symbol through: it does not end with the
    invalid-symbol error. *)
Definition symbol_accepted (args : Namespace) : Prop :=
  validate_args args <> Raise InvalidSymbol.

(** ** Order construction: the parameters of [place_order] *)

(** The values stored in the dictionaries exchanged with the API
    client. *)
Inductive pyval : Type :=
| VStr (s : string)
| VFloat (x : Q)
| VInt (n : Z)
| VNone.

Definition of_opt_float (x : option Q) : pyval :=
  match x with
  | Some v => VFloat v
  | None => VNone
  end.

Definition of_opt_int (x : option Z) : pyval :=
  match x with
  | Some v => VInt v
  | None => VNone
  end.

Definition type_map : gmap string string :=
  <["MARKET" := "MARKET"]>
    (<["LIMIT" := "LIMIT"]>
       (<["STOP" := "STOP_MARKET"]>
          (<["TRAILING_STOP" := "TRAILING_STOP_MARKET"]> ∅))).

(** [d.get(key, default)] *)
Definition dict_get {V : Type} (d : gmap string V) (key : string) (dflt : V) : V :=
  default dflt (d !! key).

(** [key in d] *)
Definition dict_contains {V : Type} (d : gmap string V) (key : string) : bool :=
  match d !! key with
  | Some _ => true
  | None => false
  end.

(** The dictionary [params] as [place_order] has built it when it logs
    and submits it (lines 78-104).  [now_ms] is the value of
    [int(time.time() * 1000)]. *)
Definition place_order_params (now_ms : Z)
    (symbol side order_type : string) (quantity : Q)
    (price stop_price : option Q) (trailing_delta : option Z)
  : gmap string pyval :=
  let params : gmap string pyval :=
    <["symbol" := VStr (PyStr.upper symbol)]>
      (<["side" := VStr side]>
         (<["type" := VStr (dict_get type_map order_type order_type)]>
            (<["quantity" := VFloat quantity]>
               (<["timestamp" := VInt now_ms]> ∅)))) in
  let params :=
    if truthy_float price
    then <["timeInForce" := VStr "GTC"]> (<["price" := of_opt_float price]> params)
    else params in
  let params :=
    if truthy_float stop_price
    then <["stopPrice" := of_opt_float stop_price]> params
    else params in
  let params :=
    if truthy_int trailing_delta
    then <["workingType" := VStr "MARK_PRICE"]>
           (<["callbackRate" := of_opt_int trailing_delta]>
              (<["activationPrice" := of_opt_float stop_price]> params))
    else params in
  params.

(** The optional fields of the outgoing parameters. *)
Definition optional_fields : list string :=
  ["price"; "timeInForce"; "stopPrice";
   "activationPrice"; "callbackRate"; "workingType"].

(** The parameters [main] hands to the collaborator for the parsed
    arguments [args]: [place_order] called as in lines 220-228. *)
Definition params_of_args (now_ms : Z) (args : Namespace) : gmap string pyval :=
  place_order_params now_ms (symbol args) (side args) (type args)
                     (quantity args) (price args) (stop_price args)
                     (trailing_delta args).

(** The wire name of an order type, in the words of the specification:
    STOP and TRAILING_STOP are renamed, anything else passes through. *)
Definition spec_wire_type (order_type : string) : string :=
  if String.eqb order_type "STOP" then "STOP_MARKET"
  else if String.eqb order_type "TRAILING_STOP" then "TRAILING_STOP_MARKET"
  else order_type.

(** ** The collaborator and the trace of effects *)

Record BalanceItem : Type := mkBalanceItem {
  asset : string;
  availableBalance : Q   (* float(item['availableBalance']) *)
}.

(** One entry of [symbol_info['filters']].  The three quantities are the
    values of [float(filter['minQty'])], [float(filter['maxQty'])] and
    [float(filter['stepSize'])]; they are read for LOT_SIZE only. *)
Record Filter : Type := mkFilter {
  filterType : string;
  minQty : Q;
  maxQty : Q;
  stepSize : Q
}.

Record SymbolInfo : Type := mkSymbolInfo {
  info_symbol : string;          (* symbol_info['symbol'] *)
  filters : list Filter          (* symbol_info['filters'] *)
}.

(** What the exchange answers to each call of the API client.  Every
    call is issued at most once per run. *)
Record Exchange : Type := mkExchange {
  new_client : string -> string -> bool -> result unit;
  futures_account : result unit;
  futures_account_balance : result (list BalanceItem);
  futures_create_order : gmap string pyval -> result (gmap string pyval);
  futures_exchange_info : result (list SymbolInfo)   (* info['symbols'] *)
}.

Inductive call : Type :=
| CallClient (api_key api_secret : string) (testnet : bool)
| CallFuturesAccount
| CallFuturesAccountBalance
| CallFuturesCreateOrder (params : gmap string pyval)
| CallFuturesExchangeInfo.

Inductive logrec : Type :=
| LogConnected
| LogConnectionFailed (status_code : Z) (message : string)
| LogConnectionError (e : exn)
| LogInitialized (testnet : bool)
| LogPlacing (params : gmap string pyval)
| LogPlaced (response : gmap string pyval)
| LogApiError (status_code : Z) (message : string)
| LogUnexpected (e : exn)
| LogBalanceFailed (e : exn).

(** The lines [main] prints.  [PError e] is
    [print(f"\n Error: {str(e)}")]: the line made of the rendering
    [str(e)] of the exception that was caught. *)
Inductive stdout_line : Type :=
| PBalance (balance : Q)
| POrderResult
| PField (label : string) (value : pyval)
| PError (e : exn).

Inductive event : Type :=
| Net (c : call)
| Log (r : logrec)
| Print (l : stdout_line).

(** A computation: the trace of its effects and its outcome. *)
Definition M (A : Type) : Type := (list event * result A)%type.

Definition ret {A : Type} (a : A) : M A := ([], Return a).

Definition raise {A : Type} (e : exn) : M A := ([], Raise e).

Definition bind {A B : Type} (m : M A) (f : A -> M B) : M B :=
  match m with
  | (t, Return a) => let (t', r) := f a in ((t ++ t')%list, r)
  | (t, Raise e) => (t, Raise e)
  end.

(** [try: m except Exception as e: h e] *)
Definition try_except {A : Type} (m : M A) (h : exn -> M A) : M A :=
  match m with
  | (t, Raise e) => let (t', r) := h e in ((t ++ t')%list, r)
  | done => done
  end.

Definition emit (ev : event) : M unit := ([ev], Return tt).

Definition lift {A : Type} (r : result A) : M A := ([], r).

(** A call of the API client: the request goes out, then the answer of
    the exchange is the outcome. *)
Definition request {A : Type} (c : call) (answer : result A) : M A :=
  ([Net c], answer).

(** The monad structure, with stdpp's notations [x ← m; k] and
    [m;; k]. *)
#[global] Instance M_ret : MRet M := @ret.
#[global] Instance M_bind : MBind M := fun A B f m => bind m f.

(** [d[key]] *)
Definition getitem (d : gmap string pyval) (key : string) : M pyval :=
  match d !! key with
  | Some v => ret v
  | None => raise (KeyError key)
  end.

(** ** [BinanceFuturesBot] *)

Definition _initialize_client (ex : Exchange)
    (api_key api_secret : string) (testnet : bool) : M unit :=
  try_except
    (request (CallClient api_key api_secret testnet)
             (new_client ex api_key api_secret testnet) ;;
     request CallFuturesAccount (futures_account ex) ;;
     emit (Log LogConnected) ;;
     ret tt)
    (fun e =>
       match e with
       | BinanceAPIException status_code message =>
           emit (Log (LogConnectionFailed status_code message)) ;; raise e
       | _ => emit (Log (LogConnectionError e)) ;; raise e
       end).

(** [BinanceFuturesBot(api_key, api_secret, testnet)] *)
Definition BinanceFuturesBot (ex : Exchange)
    (api_key api_secret : string) (testnet : bool) : M unit :=
  _initialize_client ex api_key api_secret testnet ;;
  emit (Log (LogInitialized testnet)).

Definition place_order (ex : Exchange) (now_ms : Z)
    (symbol side order_type : string) (quantity : Q)
    (price stop_price : option Q) (trailing_delta : option Z)
  : M (gmap string pyval) :=
  try_except
    (let params :=
       place_order_params now_ms symbol side order_type quantity
                          price stop_price trailing_delta in
     emit (Log (LogPlacing params)) ;;
     response ← request (CallFuturesCreateOrder params)
                         (futures_create_order ex params);
     emit (Log (LogPlaced response)) ;;
     ret response)
    (fun e =>
       match e with
       | BinanceAPIException status_code message =>
           emit (Log (LogApiError status_code message)) ;; raise e
       | _ => emit (Log (LogUnexpected e)) ;; raise e
       end).

(** ** The LOT_SIZE helper *)

(** [round(x)] of a float, to the nearest integer, a tie going to the
    even one. *)
Definition py_round (x : Q) : Z :=
  let lo := Qfloor x in
  match (x - inject_Z lo ?= 1 # 2)%Q with
  | Lt => lo
  | Gt => (lo + 1)%Z
  | Eq => if Z.even lo then lo else (lo + 1)%Z
  end.

(** [x / y] on floats: a zero divisor raises. *)
Definition float_div (x y : Q) : result Q :=
  if Qeq_bool y 0 then Raise ZeroDivisionError else Return (x / y)%Q.

(** [x < y] on floats. *)
Definition float_lt (x y : Q) : bool := negb (Qle_bool y x).

(** The body run at a LOT_SIZE filter (lines 128-138): the range check,
    then the rounding to the step size, in exact arithmetic (the
    binary64 version is [F64.lot_size_check]). *)
Definition lot_size_check (f : Filter) (quantity : Q) : result Q :=
  let min_qty := minQty f in
  let max_qty := maxQty f in
  let step_size := stepSize f in
  if float_lt quantity min_qty || float_lt max_qty quantity then
    Raise (QuantityRangeError min_qty max_qty)
  else
    match float_div quantity step_size with
    | Return ratio => Return (inject_Z (py_round ratio) * step_size)%Q
    | Raise e => Raise e
    end.

(** The inner loop over [symbol_info['filters']]: [Some] is a [return]
    or a [raise] out of the function, [None] the end of the loop. *)
Fixpoint scan_filters (fs : list Filter) (quantity : Q) : option (result Q) :=
  match fs with
  | [] => None
  | f :: rest =>
      if String.eqb (filterType f) "LOT_SIZE"
      then Some (lot_size_check f quantity)
      else scan_filters rest quantity
  end.

(** The outer loop over [info['symbols']]. *)
Fixpoint scan_symbols (infos : list SymbolInfo) (symbol : string) (quantity : Q)
  : option (result Q) :=
  match infos with
  | [] => None
  | symbol_info :: rest =>
      if String.eqb (info_symbol symbol_info) symbol
      then match scan_filters (filters symbol_info) quantity with
           | Some r => Some r
           | None => scan_symbols rest symbol quantity
           end
      else scan_symbols rest symbol quantity
  end.

Definition _validate_quantity (ex : Exchange) (symbol : string) (quantity : Q)
  : M Q :=
  info ← request CallFuturesExchangeInfo (futures_exchange_info ex);
  match scan_symbols info symbol quantity with
  | Some r => lift r
  | None => ret quantity
  end.

(** The LOT_SIZE filter the two loops of [_validate_quantity] stop at,
    stated on its own: the first LOT_SIZE filter of the first entry for
    [symbol] that has one.  [scan_symbols_spec] relates it to the
    loops. *)
Fixpoint first_lot_size (fs : list Filter) : option Filter :=
  match fs with
  | [] => None
  | f :: rest =>
      if String.eqb (filterType f) "LOT_SIZE" then Some f else first_lot_size rest
  end.

Fixpoint lot_size_of (infos : list SymbolInfo) (symbol : string) : option Filter :=
  match infos with
  | [] => None
  | symbol_info :: rest =>
      if String.eqb (info_symbol symbol_info) symbol
      then match first_lot_size (filters symbol_info) with
           | Some f => Some f
           | None => lot_size_of rest symbol
           end
      else lot_size_of rest symbol
  end.

(** [next((item for item in items if item['asset'] == asset), None)] *)
Fixpoint find_asset (items : list BalanceItem) (name : string)
  : option BalanceItem :=
  match items with
  | [] => None
  | item :: rest =>
      if String.eqb (asset item) name then Some item else find_asset rest name
  end.

Definition get_balance (ex : Exchange) (name : string) : M Q :=
  try_except
    (items ← request CallFuturesAccountBalance (futures_account_balance ex);
     match find_asset items name with
     | Some balance => ret (availableBalance balance)
     | None => ret 0%Q
     end)
    (fun e => emit (Log (LogBalanceFailed e));; raise e).

(** ** [main] *)

(** The two credential variables of the environment. *)
Record Env : Type := mkEnv {
  BINANCE_API_KEY : option string;
  BINANCE_API_SECRET : option string
}.

(** [a or b] on optional strings. *)
Definition py_or (a b : option string) : option string :=
  if truthy_str a then a else b.

(** The display of the order result (lines 231-241 of [main]). *)
Definition print_order_result (response : gmap string pyval) : M unit :=
  emit (Print POrderResult);;
  v ← getitem response "orderId"; emit (Print (PField "Order ID" v));;
  v ← getitem response "symbol"; emit (Print (PField "Symbol" v));;
  v ← getitem response "type"; emit (Print (PField "Type" v));;
  v ← getitem response "side"; emit (Print (PField "Side" v));;
  v ← getitem response "origQty"; emit (Print (PField "Quantity" v));;
  v ← getitem response "status"; emit (Print (PField "Status" v));;
  (if dict_contains response "price"
   then v ← getitem response "price"; emit (Print (PField "Price" v))
   else ret tt);;
  (if dict_contains response "stopPrice"
   then v ← getitem response "stopPrice"; emit (Print (PField "Stop Price" v))
   else ret tt).

(** The body of the [try] block of [main]. *)
Definition main_body (ex : Exchange) (env : Env) (now_ms : Z) (args : Namespace)
  : M unit :=
  lift (validate_args args);;
  let key := py_or (api_key args) (BINANCE_API_KEY env) in
  let secret := py_or (api_secret args) (BINANCE_API_SECRET env) in
  (if negb (truthy_str key) || negb (truthy_str secret)
   then raise (ValueError "API keys must be provided via CLI or .env file")
   else ret tt);;
  BinanceFuturesBot ex (default "" key) (default "" secret) (testnet args);;
  balance ← get_balance ex "USDT";
  emit (Print (PBalance balance));;
  response ← place_order ex now_ms (symbol args) (side args) (type args)
                         (quantity args) (price args) (stop_price args)
                         (trailing_delta args);
  print_order_result response.

(** A run of [main] on parsed arguments: the trace of its effects and
    the exit code of the process.  The handler of the [try] block
    prints the error line and calls [exit(1)]; a body that ends
    normally lets the process end with code 0. *)
Definition main (ex : Exchange) (env : Env) (now_ms : Z) (args : Namespace)
  : list event * Z :=
  match main_body ex env now_ms args with
  | (t, Return _) => (t, 0%Z)
  | (t, Raise e) => ((t ++ [Print (PError e)])%list, 1%Z)
  end.

(** *** Projections of a trace *)

Definition is_net (ev : event) : bool :=
  match ev with Net _ => true | _ => false end.

Definition is_submit (ev : event) : bool :=
  match ev with Net (CallFuturesCreateOrder _) => true | _ => false end.

(** The calls made to the collaborator, in order. *)
Definition net_calls (t : list event) : list event := List.filter is_net t.

(** The order submissions among them. *)
Definition submissions (t : list event) : list event := List.filter is_submit t.

(** The lines printed on standard output, in order. *)
Fixpoint stdout (t : list event) : list stdout_line :=
  match t with
  | [] => []
  | Print l :: rest => l :: stdout rest
  | _ :: rest => stdout rest
  end.

(** The three shapes of a run, told apart by what happens to the order
    submission. *)
Inductive run_shape (ex : Exchange) (now_ms : Z) (args : Namespace)
  : list event * Z -> Prop :=
| FailedEarly (t : list event) (e : exn) :
    submissions t = [] ->
    run_shape ex now_ms args ((t ++ [Print (PError e)])%list, 1%Z)
| Rejected (pre : list event) (balance : Q) (e : exn) (r : logrec) :
    validate_args args = Return tt ->
    submissions pre = [] ->
    stdout pre = [PBalance balance] ->
    futures_create_order ex (params_of_args now_ms args) = Raise e ->
    run_shape ex now_ms args
      ((pre ++ [Log (LogPlacing (params_of_args now_ms args));
                Net (CallFuturesCreateOrder (params_of_args now_ms args));
                Log r; Print (PError e)])%list, 1%Z)
| Accepted (pre : list event) (balance : Q) (response : gmap string pyval)
    (t : list event) (code : Z) :
    validate_args args = Return tt ->
    submissions pre = [] ->
    stdout pre = [PBalance balance] ->
    futures_create_order ex (params_of_args now_ms args) = Return response ->
    net_calls t = [] ->
    (code = 0%Z -> forall e, ~ In (PError e) (stdout t)) ->
    run_shape ex now_ms args
      ((pre ++ [Log (LogPlacing (params_of_args now_ms args));
                Net (CallFuturesCreateOrder (params_of_args now_ms args));
                Log (LogPlaced response)] ++ t)%list, code).

(** ** Sample command lines *)

Module Samples.

(** [--symbol s --side BUY --type t --quantity q] with the optional
    flags [--price], [--stop_price] and [--trailing_delta], the
    credentials taken from the environment. *)
Definition order (s t : string) (q : Q)
    (p sp : option Q) (td : option Z) : Namespace :=
  {| symbol := s; side := "BUY"; type := t; quantity := q;
     price := p; stop_price := sp; trailing_delta := td;
     api_key := None; api_secret := None; testnet := true |}.

Definition env : Env :=
  {| BINANCE_API_KEY := Some "key"; BINANCE_API_SECRET := Some "secret" |}.

(** An exchange that accepts the connection, reports 25 USDT and
    answers every order submission with [answer]. *)
Definition exchange (answer : result (gmap string pyval)) : Exchange :=
  {| new_client := fun _ _ _ => Return tt;
     futures_account := Return tt;
     futures_account_balance := Return [mkBalanceItem "USDT" 25];
     futures_create_order := fun _ => answer;
     futures_exchange_info :=
       Return [mkSymbolInfo "ETHUSDT" [mkFilter "LOT_SIZE" 1 100 1];
               mkSymbolInfo "BTCUSDT"
                 [mkFilter "PRICE_FILTER" 0 0 0;
                  mkFilter "LOT_SIZE" (1 # 2) (21 # 2) 1]] |}.

End Samples.

(** ** Vocabulary of the further properties *)

(** The record the handlers of [_initialize_client] log for the
    exception [e] (lines 58-63). *)
Definition connection_log (e : exn) : logrec :=
  match e with
  | BinanceAPIException status_code message =>
      LogConnectionFailed status_code message
  | _ => LogConnectionError e
  end.

(** The record the handlers of [place_order] log for the exception [e]
    (lines 114-119). *)
Definition order_log (e : exn) : logrec :=
  match e with
  | BinanceAPIException status_code message => LogApiError status_code message
  | _ => LogUnexpected e
  end.

(** The keys [main] reads from the response without testing for them
    (lines 232-237), in the order it reads them. *)
Definition required_keys : list string :=
  ["orderId"; "symbol"; "type"; "side"; "origQty"; "status"].

(** The first key of [keys] that [response] lacks. *)
Fixpoint first_missing (keys : list string) (response : gmap string pyval)
  : option string :=
  match keys with
  | [] => None
  | key :: rest =>
      match response !! key with
      | Some _ => first_missing rest response
      | None => Some key
      end
  end.

(** The line printed for an optional key of the response (lines
    238-241). *)
Definition optional_line (label key : string) (response : gmap string pyval)
  : list stdout_line :=
  match response !! key with
  | Some v => [PField label v]
  | None => []
  end.

(** Every key [place_order] can put into [params]. *)
Definition param_keys : list string :=
  ["symbol"; "side"; "type"; "quantity"; "timestamp";
   "price"; "timeInForce"; "stopPrice";
   "activationPrice"; "callbackRate"; "workingType"].

(** The credentials [main] connects with (lines 206-207). *)
Definition resolved_key (env : Env) (args : Namespace) : option string :=
  py_or (api_key args) (BINANCE_API_KEY env).

Definition resolved_secret (env : Env) (args : Namespace) : option string :=
  py_or (api_secret args) (BINANCE_API_SECRET env).

(** The collaborator calls of a run that goes all the way, in order. *)
Definition full_call_sequence (env : Env) (now_ms : Z) (args : Namespace)
  : list event :=
  [Net (CallClient (default "" (resolved_key env args))
                   (default "" (resolved_secret env args)) (testnet args));
   Net CallFuturesAccount;
   Net CallFuturesAccountBalance;
   Net (CallFuturesCreateOrder (params_of_args now_ms args))].

Definition is_error_line (l : stdout_line) : bool :=
  match l with PError _ => true | _ => false end.

(** The error [main] raises when a credential is missing (line 210). *)
Definition MissingCredentials : exn :=
  ValueError "API keys must be provided via CLI or .env file".

(** The balance [get_balance] reports for the answer [items] of the
    exchange (lines 144-149). *)
Definition balance_of (items : list BalanceItem) (name : string) : Q :=
  match find_asset items name with
  | Some item => availableBalance item
  | None => 0%Q
  end.

(** The effects of a run up to the balance line, when nothing fails
    before it. *)
Definition preamble (env : Env) (args : Namespace) (balance : Q) : list event :=
  [Net (CallClient (default "" (resolved_key env args))
                   (default "" (resolved_secret env args)) (testnet args));
   Net CallFuturesAccount; Log LogConnected; Log (LogInitialized (testnet args));
   Net CallFuturesAccountBalance; Print (PBalance balance)].

(** The effects of the submission itself, with the record logged after
    the answer. *)
Definition submission (now_ms : Z) (args : Namespace) (after : logrec)
  : list event :=
  [Log (LogPlacing (params_of_args now_ms args));
   Net (CallFuturesCreateOrder (params_of_args now_ms args));
   Log after].

(** A credential that is not given: [None] or the empty string. *)
Definition absent (x : option string) : Prop := x = None \/ x = Some "".

(** The line [print(f"{label}: {response[key]}")]. *)
Definition field_line (label key : string) (response : gmap string pyval)
  : stdout_line :=
  PField label (default VNone (response !! key)).

(** The lines of a complete display of [response] (lines 231-241). *)
Definition order_result_lines (response : gmap string pyval) : list stdout_line :=
  ([POrderResult;
    field_line "Order ID" "orderId" response;
    field_line "Symbol" "symbol" response;
    field_line "Type" "type" response;
    field_line "Side" "side" response;
    field_line "Quantity" "origQty" response;
    field_line "Status" "status" response]
   ++ optional_line "Price" "price" response
   ++ optional_line "Stop Price" "stopPrice" response)%list.

(** The five errors of [validate_args]. *)
Definition validation_errors : list exn :=
  [InvalidSymbol; MissingPrice; MissingStopPrice; MissingTrailingDelta;
   InvalidQuantity].

(** The values the parser admits for [--type] (lines 181-183). *)
Definition type_choices : list string :=
  ["MARKET"; "LIMIT"; "STOP"; "TRAILING_STOP"].

(** The keys of [params] that [place_order] always sets (lines 85-91). *)
Definition mandatory_keys : list string :=
  ["symbol"; "side"; "type"; "quantity"; "timestamp"].

(** ** Further samples *)

Module MoreSamples.

(** A command line that passes validation. *)
Definition market_order : Namespace :=
  Samples.order "BTCUSDT" "MARKET" (1 # 100) None None None.

(** A response of the exchange with the six keys [main] reads, and the
    price. *)
Definition full_response : gmap string pyval :=
  <["orderId" := VInt 42]>
    (<["symbol" := VStr "BTCUSDT"]>
       (<["type" := VStr "MARKET"]>
          (<["side" := VStr "BUY"]>
             (<["origQty" := VStr "0.01"]>
                (<["status" := VStr "NEW"]>
                   (<["price" := VStr "0"]> ∅)))))).

(** An exchange whose trading rules are [infos]. *)
Definition exchange_with_rules (infos : list SymbolInfo) : Exchange :=
  {| new_client := fun _ _ _ => Return tt;
     futures_account := Return tt;
     futures_account_balance := Return [];
     futures_create_order := fun _ => Return ∅;
     futures_exchange_info := Return infos |}.

(** Rules with a LOT_SIZE filter for BTCUSDT: range 1 to 100, step
    [step]. *)
Definition btc_rules (step : Q) : list SymbolInfo :=
  [mkSymbolInfo "BTCUSDT"
     [mkFilter "PRICE_FILTER" 0 0 0; mkFilter "LOT_SIZE" 1 100 step]].

End MoreSamples.

(** ** The LOT_SIZE helper on binary64

    [_validate_quantity] is the one place where the program computes
    with floats (a division, [round], a multiplication), so it is
    embedded a second time on the binary64 numbers of the machine:
    [float] with the primitive operations, which are the IEEE 754
    operations of Python's [float].  The exact-rational version above
    idealises this arithmetic. *)

Module F64.

(** One entry of [symbol_info['filters']], with the values of
    [float(filter['minQty'])], [float(filter['maxQty'])] and
    [float(filter['stepSize'])]. *)
Record Filter : Type := mkFilter {
  filterType : string;
  minQty : float;
  maxQty : float;
  stepSize : float
}.

Record SymbolInfo : Type := mkSymbolInfo {
  info_symbol : string;          (* symbol_info['symbol'] *)
  filters : list Filter          (* symbol_info['filters'] *)
}.

Inductive error : Type :=
| QuantityOutOfRange (min_qty max_qty : float)
    (* ValueError(f"Quantity must be between {min_qty} and {max_qty}") *)
| ZeroDivision      (* ZeroDivisionError: float division by zero *)
| Overflow          (* OverflowError: cannot convert float infinity to integer *)
| NaNToInteger      (* ValueError: cannot convert float NaN to integer *)
| Collaborator (e : exn).   (* raised by futures_exchange_info() *)

Inductive outcome (A : Type) : Type :=
| Returned (a : A)
| Raised (e : error).

Arguments Returned {A} a.
Arguments Raised {A} e.

(** The rational number a finite float stands for: its mantissa times
    a power of two, with its sign. *)
Definition exact (x : float) : Q :=
  match Prim2SF x with
  | S754_finite s m e =>
      ((if s then inject_Z (Zneg m) else inject_Z (Zpos m)) * (2 # 1) ^ e)%Q
  | _ => 0%Q
  end.

(** [round(x)]: the integer nearest to the value of [x], a tie going to
    the even one; NaN and the infinities have no integer. *)
Definition py_round (x : float) : outcome Z :=
  if is_nan x then Raised NaNToInteger
  else if is_infinity x then Raised Overflow
  else Returned (py_round (exact x)).

(** The float an [int] becomes when it is multiplied with a float. *)
Definition float_of_int (k : Z) : float :=
  SF2Prim (binary_normalize prec emax k 0 false).

(** [x / y]: a zero divisor, of either sign, raises. *)
Definition float_div (x y : float) : outcome float :=
  if (y =? 0)%float then Raised ZeroDivision else Returned (x / y)%float.

(** The body run at a LOT_SIZE filter (lines 128-138). *)
Definition lot_size_check (f : Filter) (quantity : float) : outcome float :=
  let min_qty := minQty f in
  let max_qty := maxQty f in
  let step_size := stepSize f in
  if (quantity <? min_qty)%float || (max_qty <? quantity)%float then
    Raised (QuantityOutOfRange min_qty max_qty)
  else
    match float_div quantity step_size with
    | Raised e => Raised e
    | Returned ratio =>
        match py_round ratio with
        | Raised e => Raised e
        | Returned k => Returned (float_of_int k * step_size)%float
        end
    end.

(** The inner loop over [symbol_info['filters']]: [Some] is a [return]
    or a [raise] out of the function, [None] the end of the loop. *)
Fixpoint scan_filters (fs : list Filter) (quantity : float)
  : option (outcome float) :=
  match fs with
  | [] => None
  | f :: rest =>
      if String.eqb (filterType f) "LOT_SIZE"
      then Some (lot_size_check f quantity)
      else scan_filters rest quantity
  end.

(** The outer loop over [info['symbols']]. *)
Fixpoint scan_symbols (infos : list SymbolInfo) (symbol : string)
    (quantity : float) : option (outcome float) :=
  match infos with
  | [] => None
  | symbol_info :: rest =>
      if String.eqb (info_symbol symbol_info) symbol
      then match scan_filters (filters symbol_info) quantity with
           | Some r => Some r
           | None => scan_symbols rest symbol quantity
           end
      else scan_symbols rest symbol quantity
  end.

(** [_validate_quantity(symbol, quantity)]; [answer] is what
    [self.client.futures_exchange_info()] returns (the list
    [info['symbols']]) or raises. *)
Definition _validate_quantity (answer : result (list SymbolInfo))
    (symbol : string) (quantity : float) : outcome float :=
  match answer with
  | Raise e => Raised (Collaborator e)
  | Return info =>
      match scan_symbols info symbol quantity with
      | Some r => r
      | None => Returned quantity
      end
  end.

(** The LOT_SIZE filter the two loops stop at, stated on its own: the
    first LOT_SIZE filter of the first entry for [symbol] that has
    one. *)
Fixpoint first_lot_size (fs : list Filter) : option Filter :=
  match fs with
  | [] => None
  | f :: rest =>
      if String.eqb (filterType f) "LOT_SIZE" then Some f else first_lot_size rest
  end.

Fixpoint lot_size_of (infos : list SymbolInfo) (symbol : string) : option Filter :=
  match infos with
  | [] => None
  | symbol_info :: rest =>
      if String.eqb (info_symbol symbol_info) symbol
      then match first_lot_size (filters symbol_info) with
           | Some f => Some f
           | None => lot_size_of rest symbol
           end
      else lot_size_of rest symbol
  end.

(** The answer of an exchange whose only rule is a LOT_SIZE filter for
    BTCUSDT. *)
Definition btc_rules (min_qty max_qty step_size : float)
  : result (list SymbolInfo) :=
  Return [mkSymbolInfo "BTCUSDT"
            [mkFilter "PRICE_FILTER" 0 0 0;
             mkFilter "LOT_SIZE" min_qty max_qty step_size]].

End F64.

(** * Properties *)

(** ** Strings *)

Module PyStrFacts.
Import PyStr.

Lemma char_upper_fixed (ch : ascii) :
  char_upper ch = ch <-> char_islower ch = false.
Proof.
  destruct ch as [[] [] [] [] [] [] [] []]; vm_compute; split; congruence.
Qed.

Lemma isupper_scan_spec (s : string) :
  forall cased,
    isupper_scan cased s = true <->
    upper s = s /\ cased || has_cased s = true.
Proof.
  induction s as [| ch rest IH]; intros cased; simpl.
  - rewrite orb_false_r. tauto.
  - destruct (char_islower ch) eqn:Hlow.
    + split; [discriminate |].
      intros [Heq _]. injection Heq as Hch _.
      apply char_upper_fixed in Hch. congruence.
    + rewrite IH. simpl.
      assert (Hch : char_upper ch = ch) by (now apply char_upper_fixed).
      rewrite Hch, orb_assoc.
      split; intros [Heq Hc]; split; try assumption; congruence.
Qed.

(** [s.isupper()] holds exactly when [s] is its own uppercase form
    and contains a letter. *)
Lemma isupper_spec (s : string) :
  isupper s = true <-> upper s = s /\ has_cased s = true.
Proof. unfold isupper. now rewrite isupper_scan_spec. Qed.

Lemma isupper_false_spec (s : string) :
  isupper s = false <-> upper s <> s \/ has_cased s = false.
Proof.
  destruct (isupper s) eqn:E.
  - apply isupper_spec in E as [E1 E2].
    split; [discriminate | intros [H | H]; congruence].
  - split; [intros _ | reflexivity].
    destruct (string_dec (upper s) s) as [Heq | Hne]; [| now left].
    right. destruct (has_cased s) eqn:Hc; [| reflexivity].
    assert (isupper s = true) by (apply isupper_spec; tauto). congruence.
Qed.

End PyStrFacts.

(** ** Truthiness *)

Lemma truthy_float_false (x : option Q) :
  truthy_float x = false <-> x = None \/ exists v, x = Some v /\ (v == 0)%Q.
Proof.
  destruct x as [v |]; simpl.
  - rewrite negb_false_iff, Qeq_bool_iff. split.
    + intros H. right. now exists v.
    + intros [H | (w & Hw & H0)]; [discriminate |]. now injection Hw as <-.
  - split; [now left | reflexivity].
Qed.

Lemma truthy_float_true (x : option Q) :
  truthy_float x = true <-> exists v, x = Some v /\ ~ (v == 0)%Q.
Proof.
  destruct x as [v |]; simpl.
  - rewrite negb_true_iff. split.
    + intros H. exists v. split; [reflexivity |].
      intros H0. apply Qeq_bool_iff in H0. congruence.
    + intros (w & Hw & H0). injection Hw as <-.
      destruct (Qeq_bool v 0) eqn:E; [| reflexivity].
      apply Qeq_bool_iff in E. contradiction.
  - split; [discriminate | intros (w & Hw & _); discriminate].
Qed.

Lemma truthy_int_false (x : option Z) :
  truthy_int x = false <-> x = None \/ x = Some 0%Z.
Proof.
  destruct x as [v |]; simpl.
  - rewrite negb_false_iff, Z.eqb_eq. split.
    + intros ->. now right.
    + intros [H | H]; [discriminate | now injection H].
  - split; [now left | reflexivity].
Qed.

Lemma truthy_int_true (x : option Z) :
  truthy_int x = true <-> exists v, x = Some v /\ v <> 0%Z.
Proof.
  destruct x as [v |]; simpl.
  - rewrite negb_true_iff, Z.eqb_neq. split.
    + intros H. now exists v.
    + intros (w & Hw & H0). now injection Hw as <-.
  - split; [discriminate | intros (w & Hw & _); discriminate].
Qed.

(** ** [validate_args] *)

(** The outcome of [validate_args] once the checks before a given one
    are known to pass. *)
Lemma validate_args_symbol (args : Namespace) :
  PyStr.isupper (symbol args) = false -> validate_args args = Raise InvalidSymbol.
Proof. intros H. unfold validate_args. now rewrite H. Qed.

Lemma validate_args_limit (args : Namespace) :
  PyStr.isupper (symbol args) = true ->
  type args = "LIMIT" ->
  validate_args args =
    if truthy_float (price args) then
      if Qle_bool (quantity args) 0 then Raise InvalidQuantity else Return tt
    else Raise MissingPrice.
Proof.
  intros Hs Ht. unfold validate_args. rewrite Hs, Ht. simpl.
  now destruct (truthy_float (price args)).
Qed.

Lemma validate_args_stop (args : Namespace) :
  PyStr.isupper (symbol args) = true ->
  type args = "STOP" ->
  validate_args args =
    if truthy_float (stop_price args) then
      if Qle_bool (quantity args) 0 then Raise InvalidQuantity else Return tt
    else Raise MissingStopPrice.
Proof.
  intros Hs Ht. unfold validate_args. rewrite Hs, Ht. simpl.
  now destruct (truthy_float (stop_price args)).
Qed.

Lemma validate_args_trailing (args : Namespace) :
  PyStr.isupper (symbol args) = true ->
  type args = "TRAILING_STOP" ->
  validate_args args =
    if truthy_int (trailing_delta args) then
      if Qle_bool (quantity args) 0 then Raise InvalidQuantity else Return tt
    else Raise MissingTrailingDelta.
Proof.
  intros Hs Ht. unfold validate_args. rewrite Hs, Ht. simpl.
  now destruct (truthy_int (trailing_delta args)).
Qed.

Lemma symbol_accepted_iff (args : Namespace) :
  symbol_accepted args <-> PyStr.isupper (symbol args) = true.
Proof.
  unfold symbol_accepted. split.
  - intros H. destruct (PyStr.isupper (symbol args)) eqn:E; [reflexivity |].
    exfalso. apply H. now apply validate_args_symbol.
  - intros E. unfold validate_args. rewrite E. simpl.
    repeat match goal with
           | |- context [if ?c then _ else _] => destruct c
           end; discriminate.
Qed.

(** A failed validation ends the run at once: the error line is the only
    effect and the exit code is 1. *)
Lemma main_validation_error (ex : Exchange) (env : Env) (now_ms : Z)
    (args : Namespace) (e : exn) :
  validate_args args = Raise e ->
  main ex env now_ms args = ([Print (PError e)], 1%Z).
Proof.
  intros H. unfold main, main_body. rewrite H. reflexivity.
Qed.

(** ** The outgoing parameters *)

Section Params.

Variables (now_ms : Z) (sym sd order_type : string) (qty : Q).
Variables (p sp : option Q) (td : option Z).

Let params := place_order_params now_ms sym sd order_type qty p sp td.

Ltac lookup_params :=
  subst params; unfold place_order_params;
  destruct (truthy_float p), (truthy_float sp), (truthy_int td);
  cbv zeta; by simplify_map_eq.

Lemma params_type :
  params !! "type" = Some (VStr (dict_get type_map order_type order_type)).
Proof. lookup_params. Qed.

Lemma params_price :
  params !! "price" = if truthy_float p then Some (of_opt_float p) else None.
Proof. lookup_params. Qed.

Lemma params_timeInForce :
  params !! "timeInForce" = if truthy_float p then Some (VStr "GTC") else None.
Proof. lookup_params. Qed.

Lemma params_stopPrice :
  params !! "stopPrice" = if truthy_float sp then Some (of_opt_float sp) else None.
Proof. lookup_params. Qed.

Lemma params_activationPrice :
  params !! "activationPrice"
  = if truthy_int td then Some (of_opt_float sp) else None.
Proof. lookup_params. Qed.

Lemma params_callbackRate :
  params !! "callbackRate" = if truthy_int td then Some (of_opt_int td) else None.
Proof. lookup_params. Qed.

Lemma params_workingType :
  params !! "workingType" = if truthy_int td then Some (VStr "MARK_PRICE") else None.
Proof. lookup_params. Qed.

(** [place_order] sends exactly one request, and it carries
    [params]. *)
Lemma place_order_request (ex : Exchange) :
  net_calls (fst (place_order ex now_ms sym sd order_type qty p sp td))
  = [Net (CallFuturesCreateOrder params)].
Proof.
  subst params. unfold place_order.
  destruct (futures_create_order ex _) as [resp | []]; reflexivity.
Qed.

End Params.

Lemma type_map_wire (order_type : string) :
dict_get type_map order_type order_type = spec_wire_type order_type.
Proof.
unfold spec_wire_type, dict_get, type_map.
destruct (String.eqb_spec order_type "STOP") as [-> | Hstop]; [reflexivity |].
destruct (String.eqb_spec order_type "TRAILING_STOP") as [-> | Htrail];
  [reflexivity |].
destruct (String.eqb_spec order_type "MARKET") as [-> | Hmarket]; [reflexivity |].
destruct (String.eqb_spec order_type "LIMIT") as [-> | Hlimit]; [reflexivity |].
by simplify_map_eq.
Qed.

Lemma is_Some_if {A : Type} (b : bool) (x : A) :
is_Some (if b then Some x else None) <-> b = true.
Proof.
destruct b; split; intros H; try done; by destruct H.
Qed.

(** ** The run of [main] *)

(** [M] is a monad. *)
Lemma M_left_identity {A B : Type} (a : A) (f : A -> M B) :
  ret a ≫= f = f a.
Proof. unfold mbind, M_bind, bind, ret. now destruct (f a). Qed.

Lemma M_right_identity {A : Type} (m : M A) : m ≫= ret = m.
Proof.
  destruct m as [t [a | e]]; [| reflexivity].
  unfold mbind, M_bind, bind, ret. now rewrite app_nil_r.
Qed.

Lemma M_associativity {A B C : Type} (m : M A) (f : A -> M B) (g : B -> M C) :
  (m ≫= f) ≫= g = m ≫= (fun a => f a ≫= g).
Proof.
  destruct m as [t [a | e]]; [| reflexivity].
  unfold mbind, M_bind, bind.
  destruct (f a) as [t1 [b | e1]]; [| reflexivity].
  destruct (g b) as [t2 r]. now rewrite app_assoc.
Qed.

Lemma submissions_app (t1 t2 : list event) :
  submissions (t1 ++ t2) = (submissions t1 ++ submissions t2)%list.
Proof. apply List.filter_app. Qed.

Lemma net_calls_app (t1 t2 : list event) :
  net_calls (t1 ++ t2) = (net_calls t1 ++ net_calls t2)%list.
Proof. apply List.filter_app. Qed.

Lemma stdout_app (t1 t2 : list event) :
  stdout (t1 ++ t2) = (stdout t1 ++ stdout t2)%list.
Proof.
  induction t1 as [| [c | r | l] t1 IH]; simpl; congruence.
Qed.

Lemma submission_in (t : list event) (params : gmap string pyval) :
  In (Net (CallFuturesCreateOrder params)) t ->
  In (Net (CallFuturesCreateOrder params)) (submissions t).
Proof. intros H. apply List.filter_In. now split. Qed.

Lemma bot_cases (ex : Exchange) (k s : string) (tn : bool) :
  BinanceFuturesBot ex k s tn
  = ([Net (CallClient k s tn); Net CallFuturesAccount;
      Log LogConnected; Log (LogInitialized tn)], Return tt)
  \/ exists t e, BinanceFuturesBot ex k s tn = (t, Raise e)
                 /\ submissions t = [] /\ stdout t = [].
Proof.
  unfold BinanceFuturesBot, _initialize_client.
  destruct (new_client ex k s tn) as [[] | e].
  - destruct (futures_account ex) as [[] | e].
    + now left.
    + right. destruct e; eexists _, _; repeat split.
  - right. destruct e; eexists _, _; repeat split.
Qed.

Lemma get_balance_cases (ex : Exchange) (name : string) :
  (exists balance,
      get_balance ex name = ([Net CallFuturesAccountBalance], Return balance))
  \/ exists t e, get_balance ex name = (t, Raise e)
                 /\ submissions t = [] /\ stdout t = [].
Proof.
  unfold get_balance.
  destruct (futures_account_balance ex) as [items | e].
  - left. simpl. destruct (find_asset items name); eexists; reflexivity.
  - right. eexists _, _; repeat split.
Qed.

Lemma place_order_cases (ex : Exchange) (now_ms : Z)
    (sym sd order_type : string) (qty : Q) (p sp : option Q) (td : option Z) :
  let params := place_order_params now_ms sym sd order_type qty p sp td in
  (exists response,
      futures_create_order ex params = Return response
      /\ place_order ex now_ms sym sd order_type qty p sp td
         = ([Log (LogPlacing params); Net (CallFuturesCreateOrder params);
             Log (LogPlaced response)], Return response))
  \/ (exists e r,
         futures_create_order ex params = Raise e
         /\ place_order ex now_ms sym sd order_type qty p sp td
            = ([Log (LogPlacing params); Net (CallFuturesCreateOrder params);
                Log r], Raise e)).
Proof.
  cbv zeta. unfold place_order.
  destruct (futures_create_order ex _) as [response | e].
  - left. now exists response.
  - right. exists e. destruct e; eexists; split; reflexivity.
Qed.

Lemma print_order_result_quiet (response : gmap string pyval) :
  exists t r, print_order_result response = (t, r)
              /\ net_calls t = []
              /\ forall e, ~ In (PError e) (stdout t).
Proof.
  unfold print_order_result, getitem, dict_contains.
  repeat match goal with
         | |- context [response !! ?k] => destruct (response !! k)
         end;
    eexists _, _; (split; [reflexivity |]); (split; [reflexivity |]);
    intros e; simpl; intuition discriminate.
Qed.

Lemma main_shape (ex : Exchange) (env : Env) (now_ms : Z) (args : Namespace) :
  run_shape ex now_ms args (main ex env now_ms args).
Proof.
  unfold main, main_body, mbind, M_bind. cbv zeta.
  fold (params_of_args now_ms args).
  destruct (validate_args args) as [[] | e] eqn:Hv;
    [| apply (FailedEarly _ _ _ [] e); reflexivity].
  destruct (negb _ || negb _);
    [apply (FailedEarly _ _ _ [] _); reflexivity |].
  cbn [lift ret bind].
  destruct (bot_cases ex (default "" (py_or (api_key args) (BINANCE_API_KEY env)))
                      (default "" (py_or (api_secret args) (BINANCE_API_SECRET env)))
                      (testnet args))
    as [-> | (t & e & -> & Hsub & Hout)];
    [| apply (FailedEarly _ _ _ t e); assumption].
  cbn [bind].
  destruct (get_balance_cases ex "USDT")
    as [(balance & ->) | (t & e & -> & Hsub & Hout)];
    [| apply (FailedEarly _ _ _ ([_; _; _; _] ++ t) e);
       rewrite submissions_app, Hsub; reflexivity].
  cbn [bind emit].
  destruct (place_order_cases ex now_ms (symbol args) (side args) (type args)
                              (quantity args) (price args) (stop_price args)
                              (trailing_delta args))
    as [(response & Hok & Hpo) | (e & r & Hrej & Hpo)];
    rewrite Hpo; fold (params_of_args now_ms args) in *; cbn [bind].
  - destruct (print_order_result_quiet response) as (t & res & -> & Hnet & Hno).
    destruct res as [[] | e].
    + apply (Accepted _ _ _ [_; _; _; _; _; _] balance response t 0%Z);
        auto.
    + apply (Accepted _ _ _ [_; _; _; _; _; _] balance response
                      (t ++ [Print (PError e)]) 1%Z); auto.
      * rewrite net_calls_app, Hnet. reflexivity.
      * discriminate.
  - apply (Rejected _ _ _ [_; _; _; _; _; _] balance e r); auto.
Qed.

Lemma net_call_in (t : list event) (c : call) :
  In (Net c) t -> In (Net c) (net_calls t).
Proof. intros H. apply List.filter_In. now split. Qed.

Lemma submissions_of_quiet (t : list event) :
  net_calls t = [] -> submissions t = [].
Proof.
  induction t as [| [c | r | l] t IH]; simpl; auto; discriminate.
Qed.

(** ** Rounding *)


Section Rounding.

Variable x : Q.

Let lo := Qfloor x.





End Rounding.


(** ** The LOT_SIZE helper *)

Lemma scan_filters_spec (fs : list Filter) (quantity : Q) :
  scan_filters fs quantity
  = (fun f => lot_size_check f quantity) <$> first_lot_size fs.
Proof.
  induction fs as [| f rest IH]; simpl; [reflexivity |].
  now destruct (String.eqb (filterType f) "LOT_SIZE").
Qed.

Lemma scan_symbols_spec (infos : list SymbolInfo) (symbol : string) (quantity : Q) :
  scan_symbols infos symbol quantity
  = (fun f => lot_size_check f quantity) <$> lot_size_of infos symbol.
Proof.
  induction infos as [| symbol_info rest IH]; simpl; [reflexivity |].
  destruct (String.eqb (info_symbol symbol_info) symbol); [| assumption].
  rewrite scan_filters_spec.
  now destruct (first_lot_size (filters symbol_info)).
Qed.

Lemma validate_quantity_found (ex : Exchange) (infos : list SymbolInfo)
    (symbol : string) (f : Filter) (quantity : Q) :
  futures_exchange_info ex = Return infos ->
  lot_size_of infos symbol = Some f ->
  _validate_quantity ex symbol quantity
  = ([Net CallFuturesExchangeInfo], lot_size_check f quantity).
Proof.
  intros Hinfo Hf. unfold _validate_quantity. rewrite Hinfo.
  unfold request, mbind, M_bind, bind.
  rewrite scan_symbols_spec, Hf. reflexivity.
Qed.

Lemma float_lt_false (x y : Q) : float_lt x y = false <-> (y <= x)%Q.
Proof.
  unfold float_lt. rewrite negb_false_iff. apply Qle_bool_iff.
Qed.

(** ** The LOT_SIZE helper on binary64 *)

Module F64Facts.
Import F64.







End F64Facts.

(** ** Scenarios *)

(** [--symbol BTCUSDT --side BUY --type MARKET --quantity 0.01] is a
    valid request. *)
Example scenario_market_order_valid :
  validate_args (Samples.order "BTCUSDT" "MARKET" (1 # 100) None None None)
  = Return tt.
Proof. reflexivity. Qed.

(** [--symbol BTCUSDT --side BUY --type LIMIT --quantity 0.01] without
    [--price]: the run prints the missing-price error and exits with
    code 1. *)
Example scenario_limit_without_price :
  main (Samples.exchange (Return ∅)) Samples.env 0
       (Samples.order "BTCUSDT" "LIMIT" (1 # 100) None None None)
  = ([Print (PError MissingPrice)], 1%Z).
Proof. reflexivity. Qed.

(** [--symbol btcusdt ...] fails with the invalid-symbol error. *)
Example scenario_lowercase_symbol :
  validate_args (Samples.order "btcusdt" "MARKET" (1 # 100) None None None)
  = Raise InvalidSymbol.
Proof. reflexivity. Qed.

(** Digits do not count as letters: [1000SHIBUSDT] is accepted. *)
Example scenario_symbol_with_digits :
  PyStr.isupper "1000SHIBUSDT" = true.
Proof. reflexivity. Qed.

(** [round] on ties and near them. *)
Example py_round_examples :
  py_round (5 # 2) = 2%Z /\ py_round (7 # 2) = 4%Z /\ py_round (7 # 4) = 2%Z
  /\ py_round (- (5 # 2)) = (-2)%Z /\ py_round (- (1 # 4)) = 0%Z.
Proof. repeat split. Qed.

(** ** C1: the symbol rule *)

(** C1, as stated, fails: the symbol [123] equals its own uppercase
    form, yet [str.isupper] is false on a string without a letter and
    validation rejects it with the invalid-symbol error. *)
Lemma C1_symbol_without_letter_rejected :
  let args := Samples.order "123" "MARKET" 1 None None None in
  PyStr.upper (symbol args) = symbol args /\
  validate_args args = Raise InvalidSymbol /\
  ~ symbol_accepted args.
Proof.
  cbv zeta. split; [reflexivity |]. split; [reflexivity |].
  intros H. apply H. reflexivity.
Qed.

(** C1, amended: for every ASCII symbol, validation accepts the symbol
    if and only if it equals its own uppercase form and contains at
    least one letter; a symbol that differs from its uppercase form is
    rejected with the invalid-symbol error. *)
Theorem C1_symbol_rule (args : Namespace) :
  PyStr.isascii (symbol args) = true ->
  (symbol_accepted args <->
   PyStr.upper (symbol args) = symbol args /\ PyStr.has_cased (symbol args) = true)
  /\ (PyStr.upper (symbol args) <> symbol args ->
      validate_args args = Raise InvalidSymbol).
Proof.
  intros _. split.
  - rewrite symbol_accepted_iff. apply PyStrFacts.isupper_spec.
  - intros Hne. apply validate_args_symbol.
    apply PyStrFacts.isupper_false_spec. now left.
Qed.

Lemma C1_symbol_rule_witness :
  let args := Samples.order "BTCUSDT" "MARKET" (1 # 100) None None None in
  (symbol_accepted args <->
   PyStr.upper (symbol args) = symbol args /\ PyStr.has_cased (symbol args) = true)
  /\ (PyStr.upper (symbol args) <> symbol args ->
      validate_args args = Raise InvalidSymbol).
Proof.
  cbv zeta. apply C1_symbol_rule. reflexivity.
Defined.

(** ** C2: rounding the quantity to the step size *)




(** ** C3: which optional fields are attached *)

(** C3, as stated, fails: the MARKET order
    [--symbol BTCUSDT --side BUY --type MARKET --quantity 1 --price 100]
    passes validation and its outgoing parameters carry [price] and
    [timeInForce]. *)
Lemma C3_market_order_carries_price :
  let args := Samples.order "BTCUSDT" "MARKET" 1 (Some (100 # 1)%Q) None None in
  validate_args args = Return tt /\
  type args = "MARKET" /\
  params_of_args 0 args !! "price" = Some (VFloat (100 # 1)) /\
  params_of_args 0 args !! "timeInForce" = Some (VStr "GTC").
Proof.
  cbv zeta. repeat split.
Qed.

(** C3, amended: for every validated order request, the outgoing
    parameters carry [price] and [timeInForce] exactly when a non-zero
    price was supplied, [stopPrice] exactly when a non-zero stop price
    was supplied, and [activationPrice], [callbackRate] and
    [workingType] exactly when a non-zero trailing delta was supplied,
    whatever the order type.  So a LIMIT request carries [price] and
    [timeInForce], a STOP request carries [stopPrice], a TRAILING_STOP
    request carries the three trailing fields, and a request made
    without any of the three optional values, such as the MARKET
    scenario, carries no optional field. *)
Theorem C3_optional_fields (now_ms : Z) (args : Namespace) :
  let params := params_of_args now_ms args in
  validate_args args = Return tt ->
  (forall k, In k ["price"; "timeInForce"] ->
             (is_Some (params !! k) <-> truthy_float (price args) = true))
  /\ (is_Some (params !! "stopPrice") <-> truthy_float (stop_price args) = true)
  /\ (forall k, In k ["activationPrice"; "callbackRate"; "workingType"] ->
                (is_Some (params !! k) <-> truthy_int (trailing_delta args) = true))
  /\ (type args = "LIMIT" ->
      is_Some (params !! "price") /\ is_Some (params !! "timeInForce"))
  /\ (type args = "STOP" -> is_Some (params !! "stopPrice"))
  /\ (type args = "TRAILING_STOP" ->
      is_Some (params !! "activationPrice")
      /\ is_Some (params !! "callbackRate")
      /\ is_Some (params !! "workingType"))
  /\ (price args = None -> stop_price args = None -> trailing_delta args = None ->
      forall k, In k optional_fields -> params !! k = None).
Proof.
  cbv zeta. intros Hv. unfold params_of_args.
  assert (Hs : PyStr.isupper (symbol args) = true)
    by (apply symbol_accepted_iff; unfold symbol_accepted; rewrite Hv; discriminate).
  repeat match goal with |- _ /\ _ => split end.
  - intros k [<- | [<- | []]].
    + rewrite params_price. apply is_Some_if.
    + rewrite params_timeInForce. apply is_Some_if.
  - rewrite params_stopPrice. apply is_Some_if.
  - intros k [<- | [<- | [<- | []]]].
    + rewrite params_activationPrice. apply is_Some_if.
    + rewrite params_callbackRate. apply is_Some_if.
    + rewrite params_workingType. apply is_Some_if.
  - intros Ht. rewrite validate_args_limit in Hv by auto.
    rewrite params_price, params_timeInForce.
    destruct (truthy_float (price args)); [split; by eexists | discriminate].
  - intros Ht. rewrite validate_args_stop in Hv by auto.
    rewrite params_stopPrice.
    destruct (truthy_float (stop_price args)); [by eexists | discriminate].
  - intros Ht. rewrite validate_args_trailing in Hv by auto.
    rewrite params_activationPrice, params_callbackRate, params_workingType.
    destruct (truthy_int (trailing_delta args));
      [repeat split; by eexists | discriminate].
  - intros -> -> -> k Hk. simpl in Hk.
    destruct Hk as [<- | [<- | [<- | [<- | [<- | [<- | []]]]]]].
    + now rewrite params_price.
    + now rewrite params_timeInForce.
    + now rewrite params_stopPrice.
    + now rewrite params_activationPrice.
    + now rewrite params_callbackRate.
    + now rewrite params_workingType.
Qed.

Lemma C3_optional_fields_witness :
  let params :=
    params_of_args 0 (Samples.order "BTCUSDT" "MARKET" (1 # 100) None None None) in
  params !! "price" = None /\ params !! "stopPrice" = None.
Proof.
  cbv zeta.
  destruct (C3_optional_fields
              0 (Samples.order "BTCUSDT" "MARKET" (1 # 100) None None None)
              eq_refl)
    as (_ & _ & _ & _ & _ & _ & Hnone).
  split; apply (Hnone eq_refl eq_refl eq_refl); simpl; tauto.
Defined.

(** ** C4: the price of a LIMIT order *)

(** C4, as stated, fails: a LIMIT order with the negative price -5
    passes validation, although its price is not greater than 0. *)
Lemma C4_negative_price_accepted :
  let args := Samples.order "BTCUSDT" "LIMIT" 1 (Some (-5 # 1)%Q) None None in
  type args = "LIMIT" /\
  price args = Some (-5 # 1)%Q /\
  ~ (0 < -5 # 1)%Q /\
  validate_args args = Return tt.
Proof.
  cbv zeta. repeat split. intros H. discriminate H.
Qed.

(** C4, amended: for every LIMIT order request, validation fails
    whenever the price is absent or equal to 0, with the missing-price
    error when the symbol is accepted (the symbol rule comes first);
    the run then ends with the error line and exit code 1 without any
    call to the collaborator.  A LIMIT request whose price is present
    and greater than 0 passes this rule, as does every price different
    from 0. *)
Theorem C4_limit_price_rule (args : Namespace) :
  type args = "LIMIT" ->
  ((price args = None \/ exists p, price args = Some p /\ (p == 0)%Q) ->
   (symbol_accepted args -> validate_args args = Raise MissingPrice) /\
   exists e,
     validate_args args = Raise e /\
     forall ex env now_ms,
       main ex env now_ms args = ([Print (PError e)], 1%Z) /\
       net_calls (fst (main ex env now_ms args)) = [])
  /\ ((exists p, price args = Some p /\ (0 < p)%Q) ->
      validate_args args <> Raise MissingPrice)
  /\ ((exists p, price args = Some p /\ ~ (p == 0)%Q) ->
      validate_args args <> Raise MissingPrice).
Proof.
  intros Ht.
  assert (Hpass : (exists p, price args = Some p /\ ~ (p == 0)%Q) ->
                  validate_args args <> Raise MissingPrice).
  { intros Hp. apply truthy_float_true in Hp.
    destruct (PyStr.isupper (symbol args)) eqn:Hs.
    - rewrite validate_args_limit, Hp by auto.
      destruct (Qle_bool (quantity args) 0); discriminate.
    - rewrite (validate_args_symbol _ Hs). discriminate. }
  split; [| split].
  - intros Hp. apply truthy_float_false in Hp.
    destruct (PyStr.isupper (symbol args)) eqn:Hs.
    + assert (Hv : validate_args args = Raise MissingPrice)
        by (rewrite validate_args_limit, Hp; auto).
      split; [auto |]. exists MissingPrice. split; [exact Hv |].
      intros ex env now_ms.
      now rewrite (main_validation_error _ _ _ _ _ Hv).
    + pose proof (validate_args_symbol _ Hs) as Hv. split.
      * intros Ha. apply symbol_accepted_iff in Ha. congruence.
      * exists InvalidSymbol. split; [exact Hv |].
        intros ex env now_ms.
        now rewrite (main_validation_error _ _ _ _ _ Hv).
  - intros (p & Hp & Hpos). apply Hpass. exists p. split; [exact Hp | lra].
  - exact Hpass.
Qed.

Lemma C4_limit_price_rule_witness :
  let args := Samples.order "BTCUSDT" "LIMIT" (1 # 100) None None None in
  validate_args args = Raise MissingPrice /\
  net_calls (fst (main (Samples.exchange (Return ∅)) Samples.env 0 args)) = [].
Proof.
  cbv zeta.
  destruct (C4_limit_price_rule
              (Samples.order "BTCUSDT" "LIMIT" (1 # 100) None None None)
              eq_refl) as [Hfail _].
  destruct (Hfail (or_introl eq_refl)) as (Hmissing & e & _ & Hrun).
  split.
  - apply Hmissing. apply symbol_accepted_iff. reflexivity.
  - exact (proj2 (Hrun (Samples.exchange (Return ∅)) Samples.env 0%Z)).
Defined.

(** ** C5: the order of the checks *)

(** C5: validation reports the error of the earliest violated rule, in
    the order (1) symbol, (2) LIMIT price, (3) STOP stop price,
    (4) TRAILING_STOP trailing delta, (5) quantity.  Whenever the check
    at position [i] fires and no check before it does, the outcome is the
    error of position [i]; when no check fires, validation succeeds; a
    symbol that is not uppercase together with a quantity <= 0 reports
    the invalid-symbol error. *)
Theorem C5_fail_fast_order (args : Namespace) :
  (forall (i : nat) check e,
      rule_checks !! i = Some (check, e) ->
      check args = true ->
      (forall (j : nat) check' e',
          (j < i)%nat -> rule_checks !! j = Some (check', e') -> check' args = false) ->
      validate_args args = Raise e)
  /\ ((forall (i : nat) check e,
          rule_checks !! i = Some (check, e) -> check args = false) ->
      validate_args args = Return tt)
  /\ (PyStr.isupper (symbol args) = false ->
      (quantity args <= 0)%Q ->
      validate_args args = Raise InvalidSymbol
      /\ validate_args args <> Raise InvalidQuantity).
Proof.
  split; [| split].
  - intros i check e Hi Hfire Hbefore.
    assert (H0 : (0 < i)%nat -> negb (PyStr.isupper (symbol args)) = false)
      by (intros Hlt; exact (Hbefore 0%nat _ _ Hlt eq_refl)).
    assert (H1 : (1 < i)%nat ->
                 String.eqb (type args) "LIMIT"
                 && negb (truthy_float (price args)) = false)
      by (intros Hlt; exact (Hbefore 1%nat _ _ Hlt eq_refl)).
    assert (H2 : (2 < i)%nat ->
                 String.eqb (type args) "STOP"
                 && negb (truthy_float (stop_price args)) = false)
      by (intros Hlt; exact (Hbefore 2%nat _ _ Hlt eq_refl)).
    assert (H3 : (3 < i)%nat ->
                 String.eqb (type args) "TRAILING_STOP"
                 && negb (truthy_int (trailing_delta args)) = false)
      by (intros Hlt; exact (Hbefore 3%nat _ _ Hlt eq_refl)).
    clear Hbefore. unfold validate_args.
    destruct i as [| [| [| [| [| i]]]]]; simpl in Hi; try discriminate;
      injection Hi as <- <-;
      repeat match goal with
             | H : (_ < _)%nat -> _ |- _ =>
                 first [ rewrite H by lia; clear H | clear H ]
             end;
      now rewrite Hfire.
  - intros Hnone. unfold validate_args.
    rewrite (Hnone 0%nat _ _ eq_refl), (Hnone 1%nat _ _ eq_refl),
      (Hnone 2%nat _ _ eq_refl), (Hnone 3%nat _ _ eq_refl),
      (Hnone 4%nat _ _ eq_refl).
    reflexivity.
  - intros Hs _. rewrite (validate_args_symbol _ Hs).
    split; [reflexivity | discriminate].
Qed.

Lemma C5_fail_fast_order_witness :
  let args := Samples.order "btcusdt" "LIMIT" (-1 # 1) None None None in
  validate_args args = Raise InvalidSymbol
  /\ validate_args args <> Raise InvalidQuantity.
Proof.
  cbv zeta.
  apply (C5_fail_fast_order
           (Samples.order "btcusdt" "LIMIT" (-1 # 1) None None None)).
  - reflexivity.
  - discriminate.
Defined.

(** ** C6: the wire names of the order types *)

(** C6: in the parameters [place_order] submits, the type STOP is sent
    as STOP_MARKET and TRAILING_STOP as TRAILING_STOP_MARKET, while
    MARKET and LIMIT are sent unchanged. *)
Theorem C6_wire_type_mapping (ex : Exchange) (now_ms : Z) (sym sd : string)
    (qty : Q) (p sp : option Q) (td : option Z) :
  let sent order_type :=
    place_order_params now_ms sym sd order_type qty p sp td !! "type" in
  (forall order_type,
      net_calls (fst (place_order ex now_ms sym sd order_type qty p sp td))
      = [Net (CallFuturesCreateOrder
                (place_order_params now_ms sym sd order_type qty p sp td))]
      /\ sent order_type = Some (VStr (spec_wire_type order_type)))
  /\ sent "STOP" = Some (VStr "STOP_MARKET")
  /\ sent "TRAILING_STOP" = Some (VStr "TRAILING_STOP_MARKET")
  /\ sent "MARKET" = Some (VStr "MARKET")
  /\ sent "LIMIT" = Some (VStr "LIMIT").
Proof.
  cbv zeta. split.
  - intros order_type. split; [apply place_order_request |].
    now rewrite params_type, type_map_wire.
  - repeat split; now rewrite params_type.
Qed.

(** ** C7: the fields fixed by the trailing delta and by the price *)

(** C7: when the trailing delta is set (supplied and not 0, the test
    [if trailing_delta:] of the source), the outgoing parameters carry
    the working type MARK_PRICE and an activation price equal to the
    stop price of the request; when the price is set (supplied and not
    0), the time in force is GTC. *)
Theorem C7_trailing_delta_and_price_fields (now_ms : Z)
    (sym sd order_type : string) (qty : Q) (p sp : option Q) (td : option Z) :
  let params := place_order_params now_ms sym sd order_type qty p sp td in
  (truthy_int td = true ->
   params !! "workingType" = Some (VStr "MARK_PRICE")
   /\ params !! "activationPrice" = Some (of_opt_float sp))
  /\ (truthy_float p = true ->
      params !! "timeInForce" = Some (VStr "GTC")).
Proof.
  cbv zeta. split.
  - intros Htd. now rewrite params_workingType, params_activationPrice, Htd.
  - intros Hp. now rewrite params_timeInForce, Hp.
Qed.

Lemma C7_trailing_delta_and_price_fields_witness :
  let params :=
    place_order_params 0 "BTCUSDT" "SELL" "TRAILING_STOP" 1
                       (Some (30000 # 1)%Q) (Some (29000 # 1)%Q) (Some 2%Z) in
  (params !! "workingType" = Some (VStr "MARK_PRICE")
   /\ params !! "activationPrice" = Some (VFloat (29000 # 1)))
  /\ params !! "timeInForce" = Some (VStr "GTC").
Proof.
  cbv zeta.
  destruct (C7_trailing_delta_and_price_fields
              0 "BTCUSDT" "SELL" "TRAILING_STOP" 1
              (Some (30000 # 1)%Q) (Some (29000 # 1)%Q) (Some 2%Z))
    as [Htrail Hprice].
  split; [exact (Htrail eq_refl) | exact (Hprice eq_refl)].
Defined.

(** ** C8: the trailing delta of a TRAILING_STOP order *)

(** C8, as stated, fails: a TRAILING_STOP order with the trailing delta
    500, outside 1-100, passes validation. *)
Lemma C8_trailing_delta_500_accepted :
  let args := Samples.order "BTCUSDT" "TRAILING_STOP" 1 None None (Some 500%Z) in
  type args = "TRAILING_STOP" /\
  trailing_delta args = Some 500%Z /\
  ~ (1 <= 500 <= 100)%Z /\
  validate_args args = Return tt.
Proof.
  cbv zeta. repeat split. lia.
Qed.

(** C8, amended: for every validated order request of type
    TRAILING_STOP, the trailing delta is present and is an integer
    different from 0; a TRAILING_STOP request whose trailing delta is
    absent or 0 does not pass validation. *)
Theorem C8_trailing_delta_rule (args : Namespace) :
  type args = "TRAILING_STOP" ->
  (validate_args args = Return tt ->
   exists d, trailing_delta args = Some d /\ d <> 0%Z)
  /\ (trailing_delta args = None \/ trailing_delta args = Some 0%Z ->
      validate_args args <> Return tt).
Proof.
  intros Ht.
  assert (Hkey : validate_args args = Return tt ->
                 truthy_int (trailing_delta args) = true).
  { destruct (PyStr.isupper (symbol args)) eqn:Hs.
    - rewrite validate_args_trailing by auto.
      destruct (truthy_int (trailing_delta args)); [reflexivity | discriminate].
    - rewrite (validate_args_symbol _ Hs). discriminate. }
  split.
  - intros Hv. apply truthy_int_true. auto.
  - intros Hd Hv. apply truthy_int_false in Hd. apply Hkey in Hv. congruence.
Qed.

Lemma C8_trailing_delta_rule_witness :
  let args := Samples.order "BTCUSDT" "TRAILING_STOP" 1 None None (Some 3%Z) in
  exists d, trailing_delta args = Some d /\ d <> 0%Z.
Proof.
  cbv zeta.
  apply (C8_trailing_delta_rule
           (Samples.order "BTCUSDT" "TRAILING_STOP" 1 None None (Some 3%Z))
           eq_refl).
  reflexivity.
Defined.

(** ** C9: an order rejected by the collaborator *)

(** C9: in every run in which the order is submitted and the
    collaborator answers the submission with an API error (status code
    and message), the tool prints the error line of exactly that error
    on standard output, after the balance line, exits with code 1 and
    has submitted the order once.  A run that exits with code 0 has
    passed validation, had its single submission accepted and printed
    no error line. *)
Theorem C9_api_error_on_submit (ex : Exchange) (env : Env) (now_ms : Z)
    (args : Namespace) :
  (forall params status_code message,
      In (Net (CallFuturesCreateOrder params)) (fst (main ex env now_ms args)) ->
      futures_create_order ex params
      = Raise (BinanceAPIException status_code message) ->
      snd (main ex env now_ms args) = 1%Z
      /\ (exists balance,
             stdout (fst (main ex env now_ms args))
             = [PBalance balance;
                PError (BinanceAPIException status_code message)])
      /\ submissions (fst (main ex env now_ms args))
         = [Net (CallFuturesCreateOrder params)])
  /\ (snd (main ex env now_ms args) = 0%Z ->
      validate_args args = Return tt
      /\ (exists response,
             futures_create_order ex (params_of_args now_ms args) = Return response)
      /\ submissions (fst (main ex env now_ms args))
         = [Net (CallFuturesCreateOrder (params_of_args now_ms args))]
      /\ forall e, ~ In (PError e) (stdout (fst (main ex env now_ms args)))).
Proof.
  pose proof (main_shape ex env now_ms args) as Hshape.
  destruct (main ex env now_ms args) as [trace code]. simpl fst. simpl snd.
  split.
  - intros params status_code message Hin Hanswer.
    inversion Hshape as [t e Hsub | pre balance e r Hv Hsub Hout Hrej
                         | pre balance response t c Hv Hsub Hout Hok Hnet Hno];
      subst; apply in_app_or in Hin.
    + destruct Hin as [Hin | [Hin | []]]; [| discriminate].
      apply submission_in in Hin. rewrite Hsub in Hin. destruct Hin.
    + destruct Hin as [Hin | Hin].
      { apply submission_in in Hin. rewrite Hsub in Hin. destruct Hin. }
      destruct Hin as [Hin | [Hin | [Hin | [Hin | []]]]]; try discriminate.
      injection Hin as <-.
      rewrite Hrej in Hanswer. injection Hanswer as ->.
      split; [reflexivity |]. split.
      * exists balance. rewrite stdout_app, Hout. reflexivity.
      * rewrite submissions_app, Hsub. reflexivity.
    + destruct Hin as [Hin | Hin].
      { apply submission_in in Hin. rewrite Hsub in Hin. destruct Hin. }
      destruct Hin as [Hin | [Hin | [Hin | Hin]]]; try discriminate.
      * injection Hin as <-. congruence.
      * apply net_call_in in Hin. rewrite Hnet in Hin. destruct Hin.
  - intros Hcode.
    inversion Hshape as [t e Hsub | pre balance e r Hv Hsub Hout Hrej
                         | pre balance response t c Hv Hsub Hout Hok Hnet Hno];
      subst; try discriminate.
    split; [assumption |]. split; [now exists response |]. split.
    + pose proof (submissions_of_quiet _ Hnet) as Hquiet.
      unfold submissions in *. rewrite List.filter_app, Hsub. simpl.
      now rewrite Hquiet.
    + intros e. rewrite stdout_app, Hout. simpl.
      intros [Hin | Hin]; [discriminate | exact (Hno eq_refl e Hin)].
Qed.

Lemma C9_api_error_on_submit_witness :
  let ex := Samples.exchange (Raise (BinanceAPIException 400 "insufficient margin")) in
  let args := Samples.order "BTCUSDT" "MARKET" (1 # 100) None None None in
  snd (main ex Samples.env 0 args) = 1%Z
  /\ (exists balance,
         stdout (fst (main ex Samples.env 0 args))
         = [PBalance balance;
            PError (BinanceAPIException 400 "insufficient margin")])
  /\ submissions (fst (main ex Samples.env 0 args))
     = [Net (CallFuturesCreateOrder (params_of_args 0 args))].
Proof.
  cbv zeta.
  apply (C9_api_error_on_submit
           (Samples.exchange (Raise (BinanceAPIException 400 "insufficient margin")))
           Samples.env 0
           (Samples.order "BTCUSDT" "MARKET" (1 # 100) None None None)).
  - vm_compute. do 7 right. left. reflexivity.
  - reflexivity.
Defined.

(** ** C10: zero counts as absent *)

(** C10, as stated, fails: the STOP order
    [--symbol btcusdt --type STOP --stop_price 0] fails with the
    invalid-symbol error of the rule checked first, not with the
    missing-stop-price error. *)
Lemma C10_rejected_symbol_reports_symbol_error :
  let args := Samples.order "btcusdt" "STOP" 1 None (Some 0%Q) None in
  type args = "STOP" /\
  stop_price args = Some 0%Q /\
  validate_args args = Raise InvalidSymbol /\
  validate_args args <> Raise MissingStopPrice.
Proof.
  cbv zeta. repeat split. discriminate.
Qed.

(** C10, amended: a value supplied as 0 is treated like a missing one.
    A STOP order with stop price 0, a LIMIT order with price 0 and a
    TRAILING_STOP order with trailing delta 0 all fail validation, and
    on an accepted symbol (the rule checked first) the error is the
    missing-stop-price, missing-price and missing-trailing-delta error
    respectively. *)
Theorem C10_zero_counts_as_absent (args : Namespace) :
  (forall z, type args = "STOP" -> stop_price args = Some z -> (z == 0)%Q ->
             validate_args args <> Return tt /\
             (symbol_accepted args -> validate_args args = Raise MissingStopPrice))
  /\ (forall z, type args = "LIMIT" -> price args = Some z -> (z == 0)%Q ->
                validate_args args <> Return tt /\
                (symbol_accepted args -> validate_args args = Raise MissingPrice))
  /\ (type args = "TRAILING_STOP" -> trailing_delta args = Some 0%Z ->
      validate_args args <> Return tt /\
      (symbol_accepted args -> validate_args args = Raise MissingTrailingDelta)).
Proof.
  assert (Hrej : PyStr.isupper (symbol args) = false ->
                 forall e, validate_args args <> Return tt /\
                           (symbol_accepted args -> validate_args args = Raise e)).
  { intros Hs e. rewrite (validate_args_symbol _ Hs). split; [discriminate |].
    intros Ha. apply symbol_accepted_iff in Ha. congruence. }
  destruct (PyStr.isupper (symbol args)) eqn:Hs; [clear Hrej |];
    (split; [| split]); intros; auto.
  - assert (Hz : truthy_float (stop_price args) = false)
      by (apply truthy_float_false; eauto).
    rewrite validate_args_stop, Hz by auto. split; [discriminate | reflexivity].
  - assert (Hz : truthy_float (price args) = false)
      by (apply truthy_float_false; eauto).
    rewrite validate_args_limit, Hz by auto. split; [discriminate | reflexivity].
  - assert (Hz : truthy_int (trailing_delta args) = false)
      by (apply truthy_int_false; eauto).
    rewrite validate_args_trailing, Hz by auto. split; [discriminate | reflexivity].
Qed.

Lemma C10_zero_counts_as_absent_witness :
  validate_args (Samples.order "BTCUSDT" "STOP" 1 None (Some 0%Q) None)
    = Raise MissingStopPrice
  /\ validate_args (Samples.order "BTCUSDT" "LIMIT" 1 (Some 0%Q) None None)
    = Raise MissingPrice
  /\ validate_args (Samples.order "BTCUSDT" "TRAILING_STOP" 1 None None (Some 0%Z))
    = Raise MissingTrailingDelta.
Proof.
  split; [| split].
  - apply (C10_zero_counts_as_absent
             (Samples.order "BTCUSDT" "STOP" 1 None (Some 0%Q) None))
      with (z := 0%Q); try reflexivity.
    apply symbol_accepted_iff. reflexivity.
  - apply (C10_zero_counts_as_absent
             (Samples.order "BTCUSDT" "LIMIT" 1 (Some 0%Q) None None))
      with (z := 0%Q); try reflexivity.
    apply symbol_accepted_iff. reflexivity.
  - apply (C10_zero_counts_as_absent
             (Samples.order "BTCUSDT" "TRAILING_STOP" 1 None None (Some 0%Z)));
      try reflexivity.
    apply symbol_accepted_iff. reflexivity.
Defined.

(** * Further properties *)

(** ** Equations of the stages *)

Lemma BinanceFuturesBot_eq (ex : Exchange) (k s : string) (tn : bool) :
  BinanceFuturesBot ex k s tn =
  match new_client ex k s tn with
  | Raise e => ([Net (CallClient k s tn); Log (connection_log e)], Raise e)
  | Return _ =>
      match futures_account ex with
      | Raise e =>
          ([Net (CallClient k s tn); Net CallFuturesAccount;
            Log (connection_log e)], Raise e)
      | Return _ =>
          ([Net (CallClient k s tn); Net CallFuturesAccount;
            Log LogConnected; Log (LogInitialized tn)], Return tt)
      end
  end.
Proof.
  unfold BinanceFuturesBot, _initialize_client.
  destruct (new_client ex k s tn) as [[] | []];
    [destruct (futures_account ex) as [[] | []] | ..]; reflexivity.
Qed.

Lemma get_balance_eq (ex : Exchange) (name : string) :
  get_balance ex name =
  match futures_account_balance ex with
  | Raise e => ([Net CallFuturesAccountBalance; Log (LogBalanceFailed e)], Raise e)
  | Return items =>
      ([Net CallFuturesAccountBalance],
       Return (match find_asset items name with
               | Some item => availableBalance item
               | None => 0%Q
               end))
  end.
Proof.
  unfold get_balance.
  destruct (futures_account_balance ex) as [items | e]; [| reflexivity].
  simpl. now destruct (find_asset items name).
Qed.

Lemma place_order_eq (ex : Exchange) (now_ms : Z)
    (sym sd order_type : string) (qty : Q) (p sp : option Q) (td : option Z) :
  let params := place_order_params now_ms sym sd order_type qty p sp td in
  place_order ex now_ms sym sd order_type qty p sp td =
  match futures_create_order ex params with
  | Raise e =>
      ([Log (LogPlacing params); Net (CallFuturesCreateOrder params);
        Log (order_log e)], Raise e)
  | Return response =>
      ([Log (LogPlacing params); Net (CallFuturesCreateOrder params);
        Log (LogPlaced response)], Return response)
  end.
Proof.
  cbv zeta. unfold place_order.
  destruct (futures_create_order ex _) as [response | []]; reflexivity.
Qed.

(** The lines of a complete display of [response]. *)
Lemma print_order_result_eq (response : gmap string pyval) :
  match first_missing required_keys response with
  | Some key =>
      exists t, print_order_result response = (t, Raise (KeyError key))
                /\ net_calls t = []
                /\ List.filter is_error_line (stdout t) = []
  | None =>
      exists v1 v2 v3 v4 v5 v6,
        response !! "orderId" = Some v1 /\ response !! "symbol" = Some v2
        /\ response !! "type" = Some v3 /\ response !! "side" = Some v4
        /\ response !! "origQty" = Some v5 /\ response !! "status" = Some v6
        /\ exists t,
            print_order_result response = (t, Return tt)
            /\ net_calls t = []
            /\ stdout t
               = ([POrderResult; PField "Order ID" v1; PField "Symbol" v2;
                   PField "Type" v3; PField "Side" v4; PField "Quantity" v5;
                   PField "Status" v6]
                  ++ optional_line "Price" "price" response
                  ++ optional_line "Stop Price" "stopPrice" response)%list
  end.
Proof.
  unfold print_order_result, getitem, dict_contains, optional_line,
    required_keys, first_missing.
  destruct (response !! "orderId") as [v1 |]; [| eexists; repeat split].
  destruct (response !! "symbol") as [v2 |]; [| eexists; repeat split].
  destruct (response !! "type") as [v3 |]; [| eexists; repeat split].
  destruct (response !! "side") as [v4 |]; [| eexists; repeat split].
  destruct (response !! "origQty") as [v5 |]; [| eexists; repeat split].
  destruct (response !! "status") as [v6 |]; [| eexists; repeat split].
  exists v1, v2, v3, v4, v5, v6. repeat (split; [reflexivity |]).
  destruct (response !! "price"), (response !! "stopPrice");
    eexists; repeat split.
Qed.

(** ** The run of [main], stage by stage *)

(** [main] as a decision list over the answers of the collaborator. *)
Lemma main_eq (ex : Exchange) (env : Env) (now_ms : Z) (args : Namespace) :
  main ex env now_ms args =
  match validate_args args with
  | Raise e => ([Print (PError e)], 1%Z)
  | Return _ =>
  if negb (truthy_str (resolved_key env args))
     || negb (truthy_str (resolved_secret env args))
  then ([Print (PError MissingCredentials)], 1%Z)
  else
  let connect :=
    Net (CallClient (default "" (resolved_key env args))
                    (default "" (resolved_secret env args)) (testnet args)) in
  match new_client ex (default "" (resolved_key env args))
                   (default "" (resolved_secret env args)) (testnet args) with
  | Raise e => ([connect; Log (connection_log e); Print (PError e)], 1%Z)
  | Return _ =>
  match futures_account ex with
  | Raise e =>
      ([connect; Net CallFuturesAccount; Log (connection_log e);
        Print (PError e)], 1%Z)
  | Return _ =>
  match futures_account_balance ex with
  | Raise e =>
      ([connect; Net CallFuturesAccount; Log LogConnected;
        Log (LogInitialized (testnet args)); Net CallFuturesAccountBalance;
        Log (LogBalanceFailed e); Print (PError e)], 1%Z)
  | Return items =>
  let pre := preamble env args (balance_of items "USDT") in
  match futures_create_order ex (params_of_args now_ms args) with
  | Raise e =>
      ((pre ++ submission now_ms args (order_log e) ++ [Print (PError e)])%list,
       1%Z)
  | Return response =>
      match print_order_result response with
      | (t, Return _) =>
          ((pre ++ submission now_ms args (LogPlaced response) ++ t)%list, 0%Z)
      | (t, Raise e) =>
          ((pre ++ submission now_ms args (LogPlaced response) ++ t
                ++ [Print (PError e)])%list, 1%Z)
      end
  end end end end end.
Proof.
  unfold main, main_body, resolved_key, resolved_secret, mbind, M_bind.
  cbv zeta.
  destruct (validate_args args) as [[] | e]; [| reflexivity].
  destruct (negb _ || negb _); [reflexivity |].
  cbn [lift ret bind].
  rewrite BinanceFuturesBot_eq.
  destruct (new_client ex _ _ _) as [[] | e]; [| reflexivity].
  destruct (futures_account ex) as [[] | e]; [| reflexivity].
  cbn [bind]. rewrite get_balance_eq.
  destruct (futures_account_balance ex) as [items | e]; [| reflexivity].
  cbn [bind emit].
  pose proof (place_order_eq ex now_ms (symbol args) (side args) (type args)
                (quantity args) (price args) (stop_price args)
                (trailing_delta args)) as Hpo.
  cbv zeta in Hpo. rewrite Hpo. clear Hpo.
  fold (params_of_args now_ms args).
  destruct (futures_create_order ex (params_of_args now_ms args))
    as [response | e]; [| reflexivity].
  cbn [bind].
  destruct (print_order_result response) as [t [[] | e]]; reflexivity.
Qed.

Lemma print_order_result_lines (response : gmap string pyval) :
  net_calls (fst (print_order_result response)) = []
  /\ List.filter is_error_line (stdout (fst (print_order_result response))) = [].
Proof.
  unfold print_order_result, getitem, dict_contains.
  repeat match goal with
         | |- context [response !! ?k] => destruct (response !! k)
         end; split; reflexivity.
Qed.

Lemma truthy_str_true (x : option string) :
  truthy_str x = true <-> exists v, x = Some v /\ v <> "".
Proof.
  destruct x as [v |]; simpl.
  - rewrite negb_true_iff. split.
    + intros H. exists v. split; [reflexivity |].
      intros ->. discriminate H.
    + intros (w & Hw & Hne). injection Hw as <-.
      now apply String.eqb_neq.
  - split; [discriminate | intros (w & Hw & _); discriminate].
Qed.

Lemma creds_available (a b : option string) :
  negb (truthy_str a) || negb (truthy_str b) = false <->
  truthy_str a = true /\ truthy_str b = true.
Proof. destruct (truthy_str a), (truthy_str b); simpl; intuition congruence. Qed.

(** ** The gates of [main] *)

Lemma calls_need_checks (ex : Exchange) (env : Env) (now_ms : Z)
    (args : Namespace) :
  net_calls (fst (main ex env now_ms args)) <> [] ->
  validate_args args = Return tt
  /\ (exists k, resolved_key env args = Some k /\ k <> "")
  /\ (exists s, resolved_secret env args = Some s /\ s <> "").
Proof.
  rewrite main_eq. cbv zeta.
  destruct (validate_args args) as [[] | e]; [| intros H; now contradiction H].
  destruct (negb _ || negb _) eqn:Hcreds; [intros H; now contradiction H |].
  intros _. apply creds_available in Hcreds as [Hk Hs].
  apply truthy_str_true in Hk, Hs. auto.
Qed.

(** X1: A run calls the collaborator only when validation has passed and a
    key and a secret that are not empty are available, from the command
    line or from the environment. *)
Theorem main_calls_only_after_checks (ex : Exchange) (env : Env) (now_ms : Z)
    (args : Namespace) :
  net_calls (fst (main ex env now_ms args)) <> [] ->
  validate_args args = Return tt
  /\ (exists k, py_or (api_key args) (BINANCE_API_KEY env) = Some k /\ k <> "")
  /\ (exists s, py_or (api_secret args) (BINANCE_API_SECRET env) = Some s
                /\ s <> "").
Proof. exact (calls_need_checks ex env now_ms args). Qed.

Lemma main_calls_only_after_checks_witness :
  validate_args MoreSamples.market_order = Return tt
  /\ (exists k, py_or (api_key MoreSamples.market_order)
                      (BINANCE_API_KEY Samples.env) = Some k /\ k <> "")
  /\ (exists s, py_or (api_secret MoreSamples.market_order)
                      (BINANCE_API_SECRET Samples.env) = Some s /\ s <> "").
Proof.
  apply (main_calls_only_after_checks (Samples.exchange (Return ∅)) Samples.env 0).
  vm_compute. discriminate.
Defined.

(** Case analysis of a run along [main_eq]. *)
Ltac run_cases ex now_ms args :=
  rewrite ?main_eq in *; cbv zeta in *;
  destruct (validate_args args) as [[] | ?e] eqn:?Hvalid;
  [ destruct (negb _ || negb _) eqn:?Hcreds;
    [ | destruct (new_client ex _ _ _) as [[] | ?e] eqn:?Hclient;
        [ destruct (futures_account ex) as [[] | ?e] eqn:?Haccount;
          [ destruct (futures_account_balance ex) as [?items | ?e] eqn:?Hbalance;
            [ destruct (futures_create_order ex (params_of_args now_ms args))
                as [?response | ?e] eqn:?Horder;
              [ lazymatch goal with
                | Hanswer : futures_create_order ex (params_of_args now_ms args)
                            = Return ?r |- _ =>
                    destruct (print_order_result r) as [?t [[] | ?e]] eqn:?Hprint
                end
              | ]
            | ]
          | ]
        | ] ]
  | ].

(** X2: The first call of a run is the construction of the client, with the
    key and the secret given on the command line when they are not
    empty, and those of the environment otherwise. *)
Theorem main_connects_with_resolved_credentials (ex : Exchange) (env : Env)
    (now_ms : Z) (args : Namespace) :
  net_calls (fst (main ex env now_ms args)) <> [] ->
  exists k s,
    head (net_calls (fst (main ex env now_ms args)))
    = Some (Net (CallClient k s (testnet args)))
    /\ k <> "" /\ s <> ""
    /\ (forall c, api_key args = Some c -> c <> "" -> k = c)
    /\ (api_key args = None \/ api_key args = Some "" ->
        BINANCE_API_KEY env = Some k)
    /\ (forall c, api_secret args = Some c -> c <> "" -> s = c)
    /\ (api_secret args = None \/ api_secret args = Some "" ->
        BINANCE_API_SECRET env = Some s).
Proof.
  intros Hcalls.
  destruct (calls_need_checks _ _ _ _ Hcalls)
    as (Hv & (k & Hk & Hkne) & (s & Hs & Hsne)).
  exists k, s. split.
  { assert (Hcreds : negb (truthy_str (resolved_key env args))
                     || negb (truthy_str (resolved_secret env args)) = false)
      by (apply creds_available; split; apply truthy_str_true; eauto).
    rewrite main_eq. cbv zeta. unfold preamble.
    rewrite Hv, Hcreds, Hk, Hs. simpl default.
    destruct (new_client ex k s (testnet args)) as [[] | e]; [| reflexivity].
    destruct (futures_account ex) as [[] | e]; [| reflexivity].
    destruct (futures_account_balance ex) as [items | e]; [| reflexivity].
    destruct (futures_create_order ex _) as [response | e]; [| reflexivity].
    destruct (print_order_result response) as [t [[] | e]]; reflexivity. }
  split; [assumption |]. split; [assumption |].
  unfold resolved_key, resolved_secret, py_or in Hk, Hs.
  repeat split.
  - intros c Hc Hcne. rewrite Hc in Hk. simpl in Hk.
    apply String.eqb_neq in Hcne. rewrite Hcne in Hk. simpl in Hk. congruence.
  - intros [Hc | Hc]; rewrite Hc in Hk; exact Hk.
  - intros c Hc Hcne. rewrite Hc in Hs. simpl in Hs.
    apply String.eqb_neq in Hcne. rewrite Hcne in Hs. simpl in Hs. congruence.
  - intros [Hc | Hc]; rewrite Hc in Hs; exact Hs.
Qed.

Lemma main_connects_with_resolved_credentials_witness :
  exists k s,
    head (net_calls (fst (main (Samples.exchange (Return ∅)) Samples.env 0
                               MoreSamples.market_order)))
    = Some (Net (CallClient k s true))
    /\ BINANCE_API_KEY Samples.env = Some k
    /\ BINANCE_API_SECRET Samples.env = Some s.
Proof.
  destruct (main_connects_with_resolved_credentials
              (Samples.exchange (Return ∅)) Samples.env 0
              MoreSamples.market_order)
    as (k & s & Hhead & _ & _ & _ & Hk & _ & Hs).
  { vm_compute. discriminate. }
  exists k, s. split; [exact Hhead |].
  split; [apply Hk | apply Hs]; now left.
Defined.

Lemma truthy_str_false (x : option string) : truthy_str x = false <-> absent x.
Proof.
  unfold absent. destruct x as [v |]; simpl.
  - rewrite negb_false_iff, String.eqb_eq. split.
    + intros ->. now right.
    + intros [H | H]; [discriminate | now injection H].
  - split; [now left | reflexivity].
Qed.

Lemma py_or_absent (a b : option string) :
  truthy_str (py_or a b) = false <-> absent a /\ absent b.
Proof.
  unfold py_or. rewrite <- !truthy_str_false.
  destruct (truthy_str a) eqn:Ha; [rewrite Ha |]; intuition congruence.
Qed.

(** X3: When the key, or the secret, is given neither on the command line
    nor in the environment, the run makes no call and exits with code 1;
    the error printed is the missing-credentials error when validation
    passes, the validation error otherwise. *)
Theorem main_missing_credentials (ex : Exchange) (env : Env) (now_ms : Z)
    (args : Namespace) :
  (absent (api_key args) /\ absent (BINANCE_API_KEY env))
  \/ (absent (api_secret args) /\ absent (BINANCE_API_SECRET env)) ->
  net_calls (fst (main ex env now_ms args)) = []
  /\ snd (main ex env now_ms args) = 1%Z
  /\ (validate_args args = Return tt ->
      main ex env now_ms args = ([Print (PError MissingCredentials)], 1%Z))
  /\ (forall e, validate_args args = Raise e ->
                main ex env now_ms args = ([Print (PError e)], 1%Z)).
Proof.
  intros Habs.
  assert (Hcreds : negb (truthy_str (resolved_key env args))
                   || negb (truthy_str (resolved_secret env args)) = true).
  { unfold resolved_key, resolved_secret.
    destruct Habs as [H | H]; apply py_or_absent in H; rewrite H;
      [reflexivity | apply orb_true_r]. }
  rewrite main_eq. cbv zeta. rewrite Hcreds.
  destruct (validate_args args) as [[] | e]; repeat split;
    try reflexivity; try discriminate.
  intros e' He'. now injection He' as <-.
Qed.

Lemma main_missing_credentials_witness :
  main (Samples.exchange (Return ∅)) (mkEnv None (Some "secret")) 0
       MoreSamples.market_order
  = ([Print (PError MissingCredentials)], 1%Z).
Proof.
  destruct (main_missing_credentials (Samples.exchange (Return ∅))
              (mkEnv None (Some "secret")) 0 MoreSamples.market_order)
    as (_ & _ & Hvalid & _).
  - left. split; now left.
  - apply Hvalid. reflexivity.
Defined.

(** X4: An order is submitted only at the end of a fixed preamble: the
    parameters are those built from the arguments, validation has
    passed, the client was constructed, the connection test and the
    balance request succeeded and the balance was printed; nothing is
    called after the submission. *)
Theorem main_submission_context (ex : Exchange) (env : Env) (now_ms : Z)
    (args : Namespace) (params : gmap string pyval) :
  In (Net (CallFuturesCreateOrder params)) (fst (main ex env now_ms args)) ->
  params = params_of_args now_ms args
  /\ validate_args args = Return tt
  /\ new_client ex (default "" (resolved_key env args))
                (default "" (resolved_secret env args)) (testnet args)
     = Return tt
  /\ futures_account ex = Return tt
  /\ exists items after rest,
      futures_account_balance ex = Return items
      /\ fst (main ex env now_ms args)
         = (preamble env args (balance_of items "USDT")
            ++ submission now_ms args after ++ rest)%list
      /\ net_calls rest = [].
Proof.
  intros Hin.
  assert (Hparams : forall rest,
             net_calls rest = [] ->
             forall balance after,
               In (Net (CallFuturesCreateOrder params))
                  (preamble env args balance
                   ++ submission now_ms args after ++ rest)%list ->
               params = params_of_args now_ms args).
  { intros rest Hrest balance after H. unfold preamble, submission in H.
    simpl in H.
    repeat (destruct H as [H | H]; [try discriminate |]).
    - now injection H.
    - apply net_call_in in H. rewrite Hrest in H. destruct H. }
  run_cases ex now_ms args; simpl in Hin;
    try (exfalso; intuition discriminate).
  - pose proof (print_order_result_lines response) as [Hnet _].
    rewrite Hprint in Hnet. simpl in Hnet.
    split; [exact (Hparams t Hnet _ _ Hin) |].
    repeat (split; [reflexivity |]).
    exists items, (LogPlaced response), t. auto.
  - pose proof (print_order_result_lines response) as [Hnet _].
    rewrite Hprint in Hnet. simpl in Hnet.
    assert (Hnet' : net_calls (t ++ [Print (PError e)]) = [])
      by (rewrite net_calls_app, Hnet; reflexivity).
    split; [exact (Hparams _ Hnet' _ _ Hin) |].
    repeat (split; [reflexivity |]).
    exists items, (LogPlaced response), (t ++ [Print (PError e)])%list. auto.
  - split; [exact (Hparams [Print (PError e)] eq_refl _ _ Hin) |].
    repeat (split; [reflexivity |]).
    exists items, (order_log e), [Print (PError e)]. auto.
Qed.

Lemma main_submission_context_witness :
  validate_args MoreSamples.market_order = Return tt
  /\ futures_account (Samples.exchange (Return ∅)) = Return tt
  /\ exists items after rest,
      futures_account_balance (Samples.exchange (Return ∅)) = Return items
      /\ fst (main (Samples.exchange (Return ∅)) Samples.env 7
                   MoreSamples.market_order)
         = (preamble Samples.env MoreSamples.market_order
                     (balance_of items "USDT")
            ++ submission 7 MoreSamples.market_order after ++ rest)%list
      /\ net_calls rest = [].
Proof.
  destruct (main_submission_context
              (Samples.exchange (Return ∅)) Samples.env 7
              MoreSamples.market_order
              (params_of_args 7 MoreSamples.market_order))
    as (_ & Hvalid & _ & Haccount & Htrace).
  { vm_compute. do 7 right. left. reflexivity. }
  split; [exact Hvalid |]. split; [exact Haccount | exact Htrace].
Defined.

(** X5: The calls of a run are an initial part of the fixed sequence
    client, connection test, balance, order: each is made at most once,
    in this order, the order is submitted at most once and the exchange
    rules are never requested. *)
Theorem main_call_sequence (ex : Exchange) (env : Env) (now_ms : Z)
    (args : Namespace) :
  exists rest,
    full_call_sequence env now_ms args
    = (net_calls (fst (main ex env now_ms args)) ++ rest)%list.
Proof.
  unfold full_call_sequence.
  run_cases ex now_ms args; unfold preamble, submission, net_calls; simpl;
    try (eexists; reflexivity).
  - pose proof (print_order_result_lines response) as [Hnet _].
    rewrite Hprint in Hnet. unfold net_calls in Hnet. simpl in Hnet.
    rewrite Hnet. now exists [].
  - pose proof (print_order_result_lines response) as [Hnet _].
    rewrite Hprint in Hnet. unfold net_calls in Hnet. simpl in Hnet.
    rewrite List.filter_app, Hnet. now exists [].
Qed.

Lemma print_order_result_complete (response : gmap string pyval) :
  first_missing required_keys response = None ->
  exists t, print_order_result response = (t, Return tt)
            /\ stdout t = order_result_lines response.
Proof.
  unfold print_order_result, getitem, dict_contains, order_result_lines,
    field_line, optional_line, required_keys, first_missing.
  destruct (response !! "orderId"); [| discriminate].
  destruct (response !! "symbol"); [| discriminate].
  destruct (response !! "type"); [| discriminate].
  destruct (response !! "side"); [| discriminate].
  destruct (response !! "origQty"); [| discriminate].
  destruct (response !! "status"); [| discriminate].
  intros _.
  destruct (response !! "price"), (response !! "stopPrice");
    eexists; split; reflexivity.
Qed.

Lemma print_order_result_incomplete (response : gmap string pyval) (key : string) :
  first_missing required_keys response = Some key ->
  exists t, print_order_result response = (t, Raise (KeyError key)).
Proof.
  intros Hmiss. pose proof (print_order_result_eq response) as H.
  rewrite Hmiss in H. destruct H as (t & H & _). now exists t.
Qed.

Lemma filter_error_lines_nil (lines : list stdout_line) :
  List.filter is_error_line lines = [] -> forall e, ~ In (PError e) lines.
Proof.
  intros H e Hin.
  assert (Hf : In (PError e) (List.filter is_error_line lines))
    by (apply List.filter_In; now split).
  rewrite H in Hf. destruct Hf.
Qed.

(** ** The end of a run *)

(** X6: A run never fails silently: it ends with code 0 and no error line
    on standard output, or with code 1 and exactly one error line, the
    last line printed. *)
Theorem main_exit_code_and_error_line (ex : Exchange) (env : Env) (now_ms : Z)
    (args : Namespace) :
  (snd (main ex env now_ms args) = 0%Z
   /\ List.filter is_error_line (stdout (fst (main ex env now_ms args))) = [])
  \/ (snd (main ex env now_ms args) = 1%Z
      /\ exists lines e,
          stdout (fst (main ex env now_ms args)) = (lines ++ [PError e])%list
          /\ List.filter is_error_line lines = []).
Proof.
  run_cases ex now_ms args; unfold preamble, submission; simpl;
    try (right; split; [reflexivity |]; now eexists [], _).
  - left. split; [reflexivity |].
    pose proof (print_order_result_lines response) as [_ Hlines].
    now rewrite Hprint in Hlines.
  - right. split; [reflexivity |].
    pose proof (print_order_result_lines response) as [_ Hlines].
    rewrite Hprint in Hlines. simpl in Hlines.
    exists (PBalance (balance_of items "USDT") :: stdout t), e.
    split; [now rewrite stdout_app | exact Hlines].
  - right. split; [reflexivity |].
    now exists [PBalance (balance_of items "USDT")], e.
Qed.

(** X7: When the exchange accepts the order but its response lacks one of
    the keys [main] reads, the run still ends with code 1: it prints the
    [KeyError] of the first missing key as its last line, the order
    having been submitted. *)
Theorem main_incomplete_response (ex : Exchange) (env : Env) (now_ms : Z)
    (args : Namespace) (response : gmap string pyval) (key : string) :
  In (Net (CallFuturesCreateOrder (params_of_args now_ms args)))
     (fst (main ex env now_ms args)) ->
  futures_create_order ex (params_of_args now_ms args) = Return response ->
  first_missing required_keys response = Some key ->
  snd (main ex env now_ms args) = 1%Z
  /\ last (stdout (fst (main ex env now_ms args))) = Some (PError (KeyError key))
  /\ submissions (fst (main ex env now_ms args))
     = [Net (CallFuturesCreateOrder (params_of_args now_ms args))].
Proof.
  intros Hin Hanswer Hmiss.
  destruct (print_order_result_incomplete _ _ Hmiss) as (t' & Hraise).
  run_cases ex now_ms args; simpl in Hin;
    try (exfalso; intuition discriminate); try discriminate.
  all: injection Hanswer as ->; rewrite Hraise in Hprint;
    inversion Hprint; subst.
  pose proof (print_order_result_lines response) as [Hnet _].
  rewrite Hraise in Hnet. simpl in Hnet.
  apply submissions_of_quiet in Hnet.
  unfold preamble, submission. simpl.
  split; [reflexivity |]. split.
  - rewrite stdout_app. simpl.
    change (last ((PBalance (balance_of items "USDT") :: stdout t)
                  ++ [PError (KeyError key)])
            = Some (PError (KeyError key))).
    apply last_snoc.
  - unfold submissions in *. rewrite List.filter_app, Hnet. reflexivity.
Qed.

Lemma main_incomplete_response_witness :
  snd (main (Samples.exchange (Return ∅)) Samples.env 0 MoreSamples.market_order)
  = 1%Z
  /\ last (stdout (fst (main (Samples.exchange (Return ∅)) Samples.env 0
                              MoreSamples.market_order)))
     = Some (PError (KeyError "orderId")).
Proof.
  destruct (main_incomplete_response
              (Samples.exchange (Return ∅)) Samples.env 0
              MoreSamples.market_order ∅ "orderId")
    as (Hcode & Hlast & _).
  - vm_compute. do 7 right. left. reflexivity.
  - reflexivity.
  - reflexivity.
  - split; [exact Hcode | exact Hlast].
Defined.

(** X8: When the exchange accepts the order and its response holds the six
    keys [main] reads, the run ends with code 0 and prints the balance
    line followed by the complete display of the response: the six
    fields, then the price and the stop price when the response holds
    them. *)
Theorem main_complete_response (ex : Exchange) (env : Env) (now_ms : Z)
    (args : Namespace) (response : gmap string pyval) :
  In (Net (CallFuturesCreateOrder (params_of_args now_ms args)))
     (fst (main ex env now_ms args)) ->
  futures_create_order ex (params_of_args now_ms args) = Return response ->
  first_missing required_keys response = None ->
  snd (main ex env now_ms args) = 0%Z
  /\ exists items,
      futures_account_balance ex = Return items
      /\ stdout (fst (main ex env now_ms args))
         = PBalance (balance_of items "USDT") :: order_result_lines response.
Proof.
  intros Hin Hanswer Hall.
  destruct (print_order_result_complete _ Hall) as (t' & Hok & Hlines).
  run_cases ex now_ms args; simpl in Hin;
    try (exfalso; intuition discriminate); try discriminate.
  all: injection Hanswer as ->; rewrite Hok in Hprint;
    inversion Hprint; subst.
  split; [reflexivity |]. exists items. split; [reflexivity |].
  unfold preamble, submission. simpl. now rewrite Hlines.
Qed.

Lemma main_complete_response_witness :
  snd (main (Samples.exchange (Return MoreSamples.full_response)) Samples.env 0
            MoreSamples.market_order)
  = 0%Z.
Proof.
  apply (main_complete_response
           (Samples.exchange (Return MoreSamples.full_response)) Samples.env 0
           MoreSamples.market_order MoreSamples.full_response).
  - vm_compute. do 7 right. left. reflexivity.
  - reflexivity.
  - reflexivity.
Defined.

(** ** What validation guarantees *)

Lemma Qle_bool_false (x y : Q) : Qle_bool x y = false <-> (y < x)%Q.
Proof.
  split.
  - intros H. apply Qnot_le_lt. intros Hle.
    apply Qle_bool_iff in Hle. congruence.
  - intros H. destruct (Qle_bool x y) eqn:E; [| reflexivity].
    apply Qle_bool_iff in E. lra.
Qed.

(** X9: The arguments pass validation exactly when the symbol is accepted,
    the value required by the order type (price for LIMIT, stop price
    for STOP, trailing delta for TRAILING_STOP) is given and not 0, and
    the quantity is not less than or equal to 0; a failed validation
    raises one of five errors. *)
Theorem validate_args_accepts_iff (args : Namespace) :
  (validate_args args = Return tt <->
   PyStr.isupper (symbol args) = true
   /\ (type args = "LIMIT" -> exists p, price args = Some p /\ ~ (p == 0)%Q)
   /\ (type args = "STOP" -> exists p, stop_price args = Some p /\ ~ (p == 0)%Q)
   /\ (type args = "TRAILING_STOP" ->
       exists d, trailing_delta args = Some d /\ d <> 0%Z)
   /\ ~ (quantity args <= 0)%Q)
  /\ (forall e, validate_args args = Raise e -> In e validation_errors).
Proof.
  split; [split |].
  - intros Hv. unfold validate_args in Hv.
    destruct (PyStr.isupper (symbol args)); [| discriminate]. simpl in Hv.
    destruct (String.eqb_spec (type args) "LIMIT") as [Hl | Hl];
      destruct (String.eqb_spec (type args) "STOP") as [Hs | Hs];
      destruct (String.eqb_spec (type args) "TRAILING_STOP") as [Ht | Ht];
      try congruence; simpl in Hv;
      repeat match type of Hv with
             | context [if negb ?c then _ else _] =>
                 destruct c eqn:?; simpl in Hv; [| discriminate]
             end;
      (destruct (Qle_bool (quantity args) 0) eqn:Hq; [discriminate |]);
      apply Qle_bool_false in Hq;
      repeat split; try assumption; try (intros Hle; lra);
      intros Hty; try congruence;
      first [ now apply truthy_float_true | now apply truthy_int_true ].
  - intros (Hsym & Hlimit & Hstop & Htrail & Hq).
    unfold validate_args. rewrite Hsym. simpl.
    apply Qnot_le_lt, Qle_bool_false in Hq. rewrite Hq.
    destruct (String.eqb_spec (type args) "LIMIT") as [Hl | Hl];
      [apply Hlimit, truthy_float_true in Hl; rewrite Hl |];
      destruct (String.eqb_spec (type args) "STOP") as [Hs | Hs];
      [apply Hstop, truthy_float_true in Hs; rewrite Hs | |
       apply Hstop, truthy_float_true in Hs; rewrite Hs |];
      destruct (String.eqb_spec (type args) "TRAILING_STOP") as [Ht | Ht];
      try (apply Htrail, truthy_int_true in Ht; rewrite Ht);
      reflexivity.
  - intros e He. unfold validate_args in He.
    repeat match type of He with
           | context [if ?c then _ else _] => destruct c
           end; try discriminate; injection He as <-;
      unfold validation_errors; simpl; tauto.
Qed.

(** ** What is sent with an order *)

Section Sent.

Variables (now_ms : Z) (sym sd order_type : string) (qty : Q).
Variables (p sp : option Q) (td : option Z).

Let params := place_order_params now_ms sym sd order_type qty p sp td.

Ltac params_cases :=
  subst params; unfold place_order_params;
  destruct (truthy_float p) eqn:Hp, (truthy_float sp) eqn:Hsp,
    (truthy_int td) eqn:Htd; cbv zeta.

(** X10: The parameters hold the five mandatory keys and no key outside the
    eleven that [place_order] knows. *)
Theorem params_keys :
  (forall k, In k mandatory_keys -> is_Some (params !! k))
  /\ (forall k, is_Some (params !! k) -> In k param_keys).
Proof.
  split.
  - intros k Hk. simpl in Hk.
    destruct Hk as [<- | [<- | [<- | [<- | [<- | []]]]]];
      params_cases; by simplify_map_eq.
  - intros k [v Hv]. revert Hv. params_cases; intros Hv;
      repeat (apply lookup_insert_Some in Hv as [[<- _] | [_ Hv]];
              [simpl; tauto |]);
      by rewrite lookup_empty in Hv.
Qed.

(** X11: Every value sent is the argument as given: the quantity is not
    rounded, the side and the time stamp are unchanged, and the price,
    the stop price and the callback rate, when attached, are the price,
    the stop price and the trailing delta of the request. *)
Theorem params_values :
  params !! "quantity" = Some (VFloat qty)
  /\ params !! "side" = Some (VStr sd)
  /\ params !! "timestamp" = Some (VInt now_ms)
  /\ (forall v, params !! "price" = Some v -> p <> None /\ v = of_opt_float p)
  /\ (forall v, params !! "stopPrice" = Some v -> sp <> None /\ v = of_opt_float sp)
  /\ (forall v, params !! "callbackRate" = Some v -> td <> None /\ v = of_opt_int td).
Proof.
  repeat split.
  1-3: params_cases; by simplify_map_eq.
  all: revert H; params_cases; simplify_map_eq; intros;
    first [ congruence | by destruct p | by destruct sp | by destruct td ].
Qed.

(** X12: With a trailing delta set, the activation price is the stop price of
    the request under another name: [None] is sent when no stop price
    was given, and a stop price that is given and not 0 is sent twice,
    as [stopPrice] and as [activationPrice]. *)
Theorem params_activation_price :
  truthy_int td = true ->
  (sp = None ->
   params !! "activationPrice" = Some VNone /\ params !! "stopPrice" = None)
  /\ (forall v, sp = Some v -> ~ (v == 0)%Q ->
                 params !! "activationPrice" = Some (VFloat v)
                 /\ params !! "stopPrice" = Some (VFloat v)).
Proof.
  intros Htd. split.
  - intros ->. subst params. unfold place_order_params. rewrite Htd.
    destruct (truthy_float p); by simplify_map_eq.
  - intros v -> Hv.
    assert (Hsp : truthy_float (Some v) = true)
      by (apply truthy_float_true; eauto).
    subst params. unfold place_order_params. rewrite Htd, Hsp.
    destruct (truthy_float p); by simplify_map_eq.
Qed.


End Sent.

Lemma params_activation_price_witness :
  place_order_params 0 "BTCUSDT" "SELL" "TRAILING_STOP" 1 None None (Some 2%Z)
    !! "activationPrice" = Some VNone
  /\ place_order_params 0 "BTCUSDT" "SELL" "TRAILING_STOP" 1 None None (Some 2%Z)
    !! "stopPrice" = None.
Proof.
  apply (params_activation_price 0 "BTCUSDT" "SELL" "TRAILING_STOP" 1
           None None (Some 2%Z)); reflexivity.
Defined.

(** X13: The symbol sent for arguments that passed validation is the symbol
    of the command line, unchanged by the conversion to uppercase. *)
Theorem validated_symbol_sent_unchanged (now_ms : Z) (args : Namespace) :
  validate_args args = Return tt ->
  params_of_args now_ms args !! "symbol" = Some (VStr (symbol args)).
Proof.
  intros Hv.
  assert (Hs : PyStr.isupper (symbol args) = true)
    by (apply symbol_accepted_iff; unfold symbol_accepted; rewrite Hv;
        discriminate).
  apply PyStrFacts.isupper_spec in Hs as [Hup _].
  unfold params_of_args, place_order_params. rewrite Hup.
  destruct (truthy_float (price args)), (truthy_float (stop_price args)),
    (truthy_int (trailing_delta args)); cbv zeta; by simplify_map_eq.
Qed.

Lemma validated_symbol_sent_unchanged_witness :
  params_of_args 0 MoreSamples.market_order !! "symbol" = Some (VStr "BTCUSDT").
Proof.
  apply (validated_symbol_sent_unchanged 0 MoreSamples.market_order).
  reflexivity.
Defined.

(** X14: The internal names STOP and TRAILING_STOP never reach the wire, and
    the four order types of the parser are sent under four different
    names. *)
Theorem wire_type_distinct (now_ms : Z) (sym sd : string) (qty : Q)
    (p sp : option Q) (td : option Z) :
  let sent order_type :=
    place_order_params now_ms sym sd order_type qty p sp td !! "type" in
  (forall order_type,
      sent order_type <> Some (VStr "STOP")
      /\ sent order_type <> Some (VStr "TRAILING_STOP"))
  /\ (forall t1 t2, In t1 type_choices -> In t2 type_choices ->
                    sent t1 = sent t2 -> t1 = t2).
Proof.
  cbv zeta. split.
  - intros order_type. rewrite params_type, type_map_wire.
    unfold spec_wire_type.
    destruct (String.eqb_spec order_type "STOP") as [-> | Hs];
      [split; discriminate |].
    destruct (String.eqb_spec order_type "TRAILING_STOP") as [-> | Ht];
      [split; discriminate |].
    split; congruence.
  - intros t1 t2 H1 H2. rewrite !params_type. simpl in H1, H2.
    destruct H1 as [<- | [<- | [<- | [<- | []]]]];
      destruct H2 as [<- | [<- | [<- | [<- | []]]]];
      (reflexivity || (vm_compute; discriminate)).
Qed.

(** ** The methods of the bot *)

(** X15: [place_order] sends one request, logged before it goes out, and
    hands the answer of the exchange through unchanged: the response,
    or the very exception, which it logs first (an API error with its
    status code and message). *)
Theorem place_order_outcome (ex : Exchange) (now_ms : Z)
    (sym sd order_type : string) (qty : Q) (p sp : option Q) (td : option Z) :
  let params := place_order_params now_ms sym sd order_type qty p sp td in
  let run := place_order ex now_ms sym sd order_type qty p sp td in
  snd run = futures_create_order ex params
  /\ exists after,
      fst run = [Log (LogPlacing params); Net (CallFuturesCreateOrder params);
                 Log after]
      /\ (forall response, snd run = Return response -> after = LogPlaced response)
      /\ (forall status_code message,
             snd run = Raise (BinanceAPIException status_code message) ->
             after = LogApiError status_code message).
Proof.
  cbv zeta.
  pose proof (place_order_eq ex now_ms sym sd order_type qty p sp td) as Heq.
  cbv zeta in Heq. rewrite Heq.
  destruct (futures_create_order ex _) as [response | e]; simpl.
  - split; [reflexivity |]. exists (LogPlaced response).
    repeat split; [congruence | discriminate].
  - split; [reflexivity |]. exists (order_log e).
    repeat split; [discriminate |].
    intros status_code message He. now injection He as ->.
Qed.

(** X16: The bot is constructed exactly when the client can be built and the
    connection test passes.  Otherwise the constructor raises the
    exception of the failing call, after logging it and without logging
    the initialisation; a failed construction of the client leaves the
    connection test out. *)
Theorem bot_construction (ex : Exchange) (k s : string) (tn : bool) :
  let run := BinanceFuturesBot ex k s tn in
  (snd run = Return tt <->
   new_client ex k s tn = Return tt /\ futures_account ex = Return tt)
  /\ (forall e, snd run = Raise e ->
                (new_client ex k s tn = Raise e
                 \/ (new_client ex k s tn = Return tt
                     /\ futures_account ex = Raise e))
                /\ last (fst run) = Some (Log (connection_log e))
                /\ ~ In (Log (LogInitialized tn)) (fst run))
  /\ (forall e, new_client ex k s tn = Raise e ->
                ~ In (Net CallFuturesAccount) (fst run)).
Proof.
  assert (Hlog : forall e, Log (connection_log e) <> Log (LogInitialized tn))
    by (intros []; discriminate).
  cbv zeta. rewrite BinanceFuturesBot_eq.
  destruct (new_client ex k s tn) as [[] | e1];
    [destruct (futures_account ex) as [[] | e2] |]; simpl.
  - split; [tauto |]. split; intros e He; discriminate He.
  - split; [split; [discriminate | intros [_ H]; discriminate H] |].
    split; [| intros e He; discriminate He].
    intros e He. injection He as <-.
    split; [right; split; reflexivity |]. split; [reflexivity |].
    intros [H | [H | [H | []]]]; try discriminate. exact (Hlog _ H).
  - split; [split; [discriminate | intros [H _]; discriminate H] |].
    split.
    + intros e He. injection He as <-.
      split; [now left |]. split; [reflexivity |].
      intros [H | [H | []]]; try discriminate. exact (Hlog _ H).
    + intros e _ [H | [H | []]]; [discriminate |].
      destruct e1; discriminate.
Qed.

Lemma find_asset_first (pre post : list BalanceItem) (item : BalanceItem)
    (name : string) :
  (forall i, In i pre -> asset i <> name) ->
  asset item = name ->
  find_asset (pre ++ item :: post) name = Some item.
Proof.
  intros Hpre Hitem. induction pre as [| i pre IH]; simpl.
  - apply String.eqb_eq in Hitem. now rewrite Hitem.
  - assert (Hi : asset i <> name) by (apply Hpre; now left).
    apply String.eqb_neq in Hi. rewrite Hi.
    apply IH. intros j Hj. apply Hpre. now right.
Qed.

Lemma find_asset_none (items : list BalanceItem) (name : string) :
  (forall i, In i items -> asset i <> name) ->
  find_asset items name = None.
Proof.
  intros Hall. induction items as [| i items IH]; simpl; [reflexivity |].
  assert (Hi : asset i <> name) by (apply Hall; now left).
  apply String.eqb_neq in Hi. rewrite Hi.
  apply IH. intros j Hj. apply Hall. now right.
Qed.

(** X17: [get_balance] reports the available balance of the first entry of
    the answer that is for the asset, and 0 when the answer holds no
    entry for it; an exception of the exchange is logged and raised
    again unchanged. *)
Theorem get_balance_outcome (ex : Exchange) (name : string) :
  (forall pre item post,
      futures_account_balance ex = Return (pre ++ item :: post)%list ->
      (forall i, In i pre -> asset i <> name) ->
      asset item = name ->
      get_balance ex name
      = ([Net CallFuturesAccountBalance], Return (availableBalance item)))
  /\ (forall items,
         futures_account_balance ex = Return items ->
         (forall i, In i items -> asset i <> name) ->
         get_balance ex name = ([Net CallFuturesAccountBalance], Return 0%Q))
  /\ (forall e,
         futures_account_balance ex = Raise e ->
         get_balance ex name
         = ([Net CallFuturesAccountBalance; Log (LogBalanceFailed e)], Raise e)).
Proof.
  rewrite get_balance_eq. repeat split.
  - intros pre item post -> Hpre Hitem.
    now rewrite (find_asset_first _ _ _ _ Hpre Hitem).
  - intros items -> Hnone. now rewrite (find_asset_none _ _ Hnone).
  - now intros e ->.
Qed.

(** ** The LOT_SIZE helper, further *)



Lemma scan_symbols_none (infos : list SymbolInfo) (symbol : string) (quantity : Q) :
  (forall symbol_info, In symbol_info infos ->
                       info_symbol symbol_info = symbol ->
                       forall f, In f (filters symbol_info) ->
                                 filterType f <> "LOT_SIZE") ->
  scan_symbols infos symbol quantity = None.
Proof.
  intros Hnone. induction infos as [| symbol_info rest IH]; simpl;
    [reflexivity |].
  assert (IH' : scan_symbols rest symbol quantity = None)
    by (apply IH; intros si Hsi; apply Hnone; now right).
  destruct (String.eqb_spec (info_symbol symbol_info) symbol) as [Hsym | _];
    [| exact IH'].
  assert (Hfs : forall f, In f (filters symbol_info) -> filterType f <> "LOT_SIZE")
    by (apply Hnone; [now left | exact Hsym]).
  assert (Hscan : scan_filters (filters symbol_info) quantity = None).
  { induction (filters symbol_info) as [| f fs IHf]; simpl; [reflexivity |].
    assert (Hf : filterType f <> "LOT_SIZE") by (apply Hfs; now left).
    apply String.eqb_neq in Hf. rewrite Hf.
    apply IHf. intros g Hg. apply Hfs. now right. }
  now rewrite Hscan.
Qed.

(** X18: When the answer of the exchange holds no LOT_SIZE filter for the
    symbol (no entry for the symbol, or entries without such a filter),
    the helper returns the quantity as it is, whatever its value. *)
Theorem validate_quantity_without_lot_size (ex : Exchange)
    (infos : list SymbolInfo) (symbol : string) (quantity : Q) :
  futures_exchange_info ex = Return infos ->
  (forall symbol_info, In symbol_info infos ->
                       info_symbol symbol_info = symbol ->
                       forall f, In f (filters symbol_info) ->
                                 filterType f <> "LOT_SIZE") ->
  _validate_quantity ex symbol quantity
  = ([Net CallFuturesExchangeInfo], Return quantity).
Proof.
  intros Hinfo Hnone. unfold _validate_quantity. rewrite Hinfo.
  unfold request, mbind, M_bind, bind.
  now rewrite (scan_symbols_none _ _ _ Hnone).
Qed.

Lemma validate_quantity_without_lot_size_witness :
  _validate_quantity (MoreSamples.exchange_with_rules (MoreSamples.btc_rules 1))
                     "DOGEUSDT" (-3 # 1)
  = ([Net CallFuturesExchangeInfo], Return (-3 # 1)%Q).
Proof.
  apply (validate_quantity_without_lot_size
           (MoreSamples.exchange_with_rules (MoreSamples.btc_rules 1))
           (MoreSamples.btc_rules 1)).
  - reflexivity.
  - intros symbol_info [<- | []] Hsym. discriminate Hsym.
Defined.

(** X19: With a step size of 0 the helper raises [ZeroDivisionError] for
    every quantity inside the range. *)
Theorem validate_quantity_zero_step (ex : Exchange) (infos : list SymbolInfo)
    (symbol : string) (f : Filter) (q : Q) :
  futures_exchange_info ex = Return infos ->
  lot_size_of infos symbol = Some f ->
  (stepSize f == 0)%Q ->
  (minQty f <= q <= maxQty f)%Q ->
  snd (_validate_quantity ex symbol q) = Raise ZeroDivisionError.
Proof.
  intros Hinfo Hf Hstep [Hmin Hmax].
  rewrite (validate_quantity_found _ _ _ _ _ Hinfo Hf). simpl.
  unfold lot_size_check, float_div.
  apply float_lt_false in Hmin, Hmax. rewrite Hmin, Hmax. simpl.
  apply Qeq_bool_iff in Hstep. now rewrite Hstep.
Qed.

Lemma validate_quantity_zero_step_witness :
  snd (_validate_quantity
         (MoreSamples.exchange_with_rules (MoreSamples.btc_rules 0)) "BTCUSDT" 5)
  = Raise ZeroDivisionError.
Proof.
  apply (validate_quantity_zero_step
           (MoreSamples.exchange_with_rules (MoreSamples.btc_rules 0))
           (MoreSamples.btc_rules 0) "BTCUSDT" (mkFilter "LOT_SIZE" 1 100 0) 5).
  - reflexivity.
  - reflexivity.
  - reflexivity.
  - split; discriminate.
Defined.


